(** * Wheel of Patterns: the CircleDivider component

    A shallow embedding of [src/App.tsx] (the [CircleDivider] React
    component): its geometry (division points, snapping), the rule
    interpreter ([handleAddRule], [handleRemoveRule], [drawRuleLines]),
    the scene composition ([drawCircle]), the stroke handlers
    ([startDrawing], [draw], [stopDrawing]) and the history handlers
    ([handleUndo], [handleRedo], [handleResetDrawing], [handleResetAll]).

    - A JavaScript [number] that holds a coordinate, an angle or a
      distance is an IEEE-754 binary64 value: Rocq's primitive [float].
    - A JavaScript [number] that only ever holds an integer (the division
      count, a loop index, a parsed rule component, the line thickness) is
      a [Z]; [parseInt] returns [option Z], [None] standing for [NaN].
      Integer arithmetic on [Z] is the arithmetic of JavaScript as long
      as the values are safe integers (below 2^53); the division count
      comes from a slider over 3..36 and the guard of [handleAddRule]
      keeps rule components below it.
    - [Math.cos], [Math.sin] and [Math.pow] are implementation-approximated
      in ECMAScript: they are the fields of the interface [MathLib], and
      a theorem holds for every implementation of it that meets the
      hypotheses the theorem states ([squares], where the Euclidean
      distance is concerned).
    - The component state is the record [State], one field per [useState]
      hook plus the two refs; a handler is a function from the state of
      the render it closes over to the state after its batched updates,
      together with the effects it performs (calls on the canvas
      context, [alert]).  The canvas is an external surface: what the
      component does to it is the list of calls it makes.

    Definitions come first, properties after them. *)

From Stdlib Require Import ZArith List Bool Lia String Ascii.
From Stdlib Require Import Floats.
Import ListNotations.

Set Implicit Arguments.

(** ** IEEE-754 comparisons

    [<] and [<=] on binary64, as specified by [SFcompare]: a strict order
    and its reflexive closure on the numbers, with [NaN] unordered. *)

Module FloatOrder.

Definition sf_lt (a b : spec_float) : Prop := SFcompare a b = Some Lt.
Definition sf_le (a b : spec_float) : Prop :=
  SFcompare a b = Some Lt \/ SFcompare a b = Some Eq.

End FloatOrder.

(** ** The fragment of the JavaScript library the component uses *)

Module JS.

Local Open Scope string_scope.
Local Open Scope Z_scope.

(** Strings are sequences of code units; the model keeps the code units
    below 256.  [WhiteSpace] and [LineTerminator] in that range: TAB, LF,
    VT, FF, CR, SP and NBSP. *)
Definition isWhiteSpace (c : ascii) : bool :=
  let n := nat_of_ascii c in
  (n =? 9)%nat || (n =? 10)%nat || (n =? 11)%nat || (n =? 12)%nat ||
  (n =? 13)%nat || (n =? 32)%nat || (n =? 160)%nat.

Fixpoint trimStart (s : string) : string :=
  match s with
  | String c r => if isWhiteSpace c then trimStart r else s
  | EmptyString => EmptyString
  end.

Fixpoint rev_append (s acc : string) : string :=
  match s with
  | String c r => rev_append r (String c acc)
  | EmptyString => acc
  end.

Definition reverse (s : string) : string := rev_append s EmptyString.

Definition trimEnd (s : string) : string := reverse (trimStart (reverse s)).

(** [String.prototype.trim] *)
Definition trim (s : string) : string := trimEnd (trimStart s).

(** [String.prototype.split] with a one-character separator: the pieces
    between the separators, never an empty array. *)
Fixpoint split (sep : ascii) (s : string) : list string :=
  match s with
  | EmptyString => [EmptyString]
  | String c r =>
      if Ascii.eqb c sep then EmptyString :: split sep r
      else match split sep r with
           | t :: ts => String c t :: ts
           | [] => [String c EmptyString]
           end
  end.

(** The value of a character as a digit: [0-9], then [a-z] and [A-Z] from
    ten. *)
Definition digitValue (c : ascii) : option Z :=
  let n := Z.of_nat (nat_of_ascii c) in
  if (48 <=? n) && (n <=? 57) then Some (n - 48)
  else if (97 <=? n) && (n <=? 122) then Some (n - 87)
  else if (65 <=? n) && (n <=? 90) then Some (n - 55)
  else None.

(** The number read so far, 0 before the first digit. *)
Definition value (a : option Z) : Z :=
  match a with Some v => v | None => 0 end.

(** The longest prefix of radix-[radix] digits, read as an integer;
    [acc] is [None] until a digit has been read. *)
Fixpoint parseDigits (radix : Z) (s : string) (acc : option Z) : option Z :=
  match s with
  | EmptyString => acc
  | String c r =>
      match digitValue c with
      | Some d =>
          if d <? radix
          then parseDigits radix r
                 (Some (radix * value acc + d))
          else acc
      | None => acc
      end
  end.

(** The steps of [parseInt(s)] with the radix left undefined: leading
    white space is skipped, one sign is read, a [0x] or [0X] prefix
    selects radix 16, the longest digit prefix is the value, anything
    after it is ignored; no digit at all is [NaN] ([None]). *)
Definition stripSign (s : string) : Z * string :=
  match s with
  | String c r =>
      if Ascii.eqb c "-" then (-1, r)
      else if Ascii.eqb c "+" then (1, r)
      else (1, s)
  | EmptyString => (1, s)
  end.

Definition stripHexPrefix (s : string) : Z * string :=
  match s with
  | String c1 (String c2 r) =>
      if Ascii.eqb c1 "0" && (Ascii.eqb c2 "x" || Ascii.eqb c2 "X")
      then (16, r)
      else (10, s)
  | _ => (10, s)
  end.

Definition parseInt (s : string) : option Z :=
  let '(sign, s1) := stripSign (trimStart s) in
  let '(radix, s2) := stripHexPrefix s1 in
  option_map (Z.mul sign) (parseDigits radix s2 None).

(** [isNaN(v)]; the missing element of a destructured array is
    [undefined], which [isNaN] turns into [NaN] as well, so both are
    [None]. *)
Definition isNaN (v : option Z) : bool :=
  match v with Some _ => false | None => true end.

(** [v >= k] and [v < k] for a parsed number [v]: false on [NaN]. *)
Definition geb (v : option Z) (k : Z) : bool :=
  match v with Some z => z >=? k | None => false end.

Definition ltb (v : option Z) (k : Z) : bool :=
  match v with Some z => z <? k | None => false end.

Definition digitChar (d : Z) : ascii := ascii_of_nat (48 + Z.to_nat d).

Fixpoint decimal (fuel : nat) (n : Z) (acc : string) : string :=
  match fuel with
  | O => acc
  | S fuel' =>
      let acc' := String (digitChar (n mod 10)) acc in
      if n <? 10 then acc' else decimal fuel' (n / 10) acc'
  end.

(** [Number.prototype.toString] on an integer (decimal digits, a minus
    sign for a negative one; integers below 10^21 print this way). *)
Definition toString (n : Z) : string :=
  if n <? 0 then String "-"%char (decimal (S (Z.to_nat (Z.log2 (- n)))) (- n) "")
  else decimal (S (Z.to_nat (Z.log2 n))) n "".

(** A parsed number inside a template string. *)
Definition numberToString (v : option Z) : string :=
  match v with Some z => toString z | None => "NaN" end.

(** The one-character string holding a double quote. *)
Definition quote : string := String (ascii_of_nat 34) EmptyString.

(** An integer-valued number as a binary64 (exact below 2^53). *)
Definition toFloat (z : Z) : float :=
  if z <? 0 then PrimFloat.opp (of_uint63 (Uint63.of_Z (- z)))
  else of_uint63 (Uint63.of_Z z).

(** [Math.PI], the binary64 nearest to pi. *)
Definition Math_PI : float := 0x1.921fb54442d18p+1%float.

(** [Math.sqrt]: the correctly rounded IEEE-754 square root. *)
Definition Math_sqrt : float -> float := PrimFloat.sqrt.

(** The implementation-approximated functions. *)
Class MathLib : Type := {
  Math_cos : float -> float;
  Math_sin : float -> float;
  Math_pow : float -> float -> float
}.

End JS.

(** ** Data model *)

Module Point.
Record t : Type := mk { x : float; y : float }.
End Point.
Abbreviation Point := Point.t.

(** [type DrawnLine = { start; end; color; thickness }] ([end] is a
    keyword of Rocq, hence [end_]). *)
Module DrawnLine.
Record t : Type := mk {
  start : Point;
  end_ : Point;
  color : string;
  thickness : Z
}.
End DrawnLine.
Abbreviation DrawnLine := DrawnLine.t.

(** The hooks of [CircleDivider], in declaration order, then the refs:
    [canvasRef] and [ctxRef] record whether [.current] is non-null. *)
Record State : Type := mkState {
  divisions : Z;
  rules : list string;
  drawingMode : bool;
  drawingColor : string;
  showRuleLines : bool;
  showOnlyPattern : bool;
  currentRule : string;
  isDrawing : bool;
  startPoint : option Point;
  drawnLines : list DrawnLine;
  undoStack : list (list DrawnLine);
  redoStack : list (list DrawnLine);
  showInstructions : bool;
  lineThickness : Z;
  freeDrawing : bool;
  showRuleExplanation : bool;
  canvasRef : bool;
  ctxRef : bool
}.

(** The state setters ([setDivisions], [setRules], ...). *)
Definition setDivisions (v : Z) (s : State) : State :=
  mkState v (rules s) (drawingMode s) (drawingColor s) (showRuleLines s)
    (showOnlyPattern s) (currentRule s) (isDrawing s) (startPoint s)
    (drawnLines s) (undoStack s) (redoStack s) (showInstructions s)
    (lineThickness s) (freeDrawing s) (showRuleExplanation s)
    (canvasRef s) (ctxRef s).

Definition setRules (v : list string) (s : State) : State :=
  mkState (divisions s) v (drawingMode s) (drawingColor s) (showRuleLines s)
    (showOnlyPattern s) (currentRule s) (isDrawing s) (startPoint s)
    (drawnLines s) (undoStack s) (redoStack s) (showInstructions s)
    (lineThickness s) (freeDrawing s) (showRuleExplanation s)
    (canvasRef s) (ctxRef s).

Definition setDrawingMode (v : bool) (s : State) : State :=
  mkState (divisions s) (rules s) v (drawingColor s) (showRuleLines s)
    (showOnlyPattern s) (currentRule s) (isDrawing s) (startPoint s)
    (drawnLines s) (undoStack s) (redoStack s) (showInstructions s)
    (lineThickness s) (freeDrawing s) (showRuleExplanation s)
    (canvasRef s) (ctxRef s).

Definition setDrawingColor (v : string) (s : State) : State :=
  mkState (divisions s) (rules s) (drawingMode s) v (showRuleLines s)
    (showOnlyPattern s) (currentRule s) (isDrawing s) (startPoint s)
    (drawnLines s) (undoStack s) (redoStack s) (showInstructions s)
    (lineThickness s) (freeDrawing s) (showRuleExplanation s)
    (canvasRef s) (ctxRef s).

Definition setShowRuleLines (v : bool) (s : State) : State :=
  mkState (divisions s) (rules s) (drawingMode s) (drawingColor s) v
    (showOnlyPattern s) (currentRule s) (isDrawing s) (startPoint s)
    (drawnLines s) (undoStack s) (redoStack s) (showInstructions s)
    (lineThickness s) (freeDrawing s) (showRuleExplanation s)
    (canvasRef s) (ctxRef s).

Definition setShowOnlyPattern (v : bool) (s : State) : State :=
  mkState (divisions s) (rules s) (drawingMode s) (drawingColor s)
    (showRuleLines s) v (currentRule s) (isDrawing s) (startPoint s)
    (drawnLines s) (undoStack s) (redoStack s) (showInstructions s)
    (lineThickness s) (freeDrawing s) (showRuleExplanation s)
    (canvasRef s) (ctxRef s).

Definition setCurrentRule (v : string) (s : State) : State :=
  mkState (divisions s) (rules s) (drawingMode s) (drawingColor s)
    (showRuleLines s) (showOnlyPattern s) v (isDrawing s) (startPoint s)
    (drawnLines s) (undoStack s) (redoStack s) (showInstructions s)
    (lineThickness s) (freeDrawing s) (showRuleExplanation s)
    (canvasRef s) (ctxRef s).

Definition setIsDrawing (v : bool) (s : State) : State :=
  mkState (divisions s) (rules s) (drawingMode s) (drawingColor s)
    (showRuleLines s) (showOnlyPattern s) (currentRule s) v (startPoint s)
    (drawnLines s) (undoStack s) (redoStack s) (showInstructions s)
    (lineThickness s) (freeDrawing s) (showRuleExplanation s)
    (canvasRef s) (ctxRef s).

Definition setStartPoint (v : option Point) (s : State) : State :=
  mkState (divisions s) (rules s) (drawingMode s) (drawingColor s)
    (showRuleLines s) (showOnlyPattern s) (currentRule s) (isDrawing s) v
    (drawnLines s) (undoStack s) (redoStack s) (showInstructions s)
    (lineThickness s) (freeDrawing s) (showRuleExplanation s)
    (canvasRef s) (ctxRef s).

Definition setDrawnLines (v : list DrawnLine) (s : State) : State :=
  mkState (divisions s) (rules s) (drawingMode s) (drawingColor s)
    (showRuleLines s) (showOnlyPattern s) (currentRule s) (isDrawing s)
    (startPoint s) v (undoStack s) (redoStack s) (showInstructions s)
    (lineThickness s) (freeDrawing s) (showRuleExplanation s)
    (canvasRef s) (ctxRef s).

Definition setUndoStack (v : list (list DrawnLine)) (s : State) : State :=
  mkState (divisions s) (rules s) (drawingMode s) (drawingColor s)
    (showRuleLines s) (showOnlyPattern s) (currentRule s) (isDrawing s)
    (startPoint s) (drawnLines s) v (redoStack s) (showInstructions s)
    (lineThickness s) (freeDrawing s) (showRuleExplanation s)
    (canvasRef s) (ctxRef s).

Definition setRedoStack (v : list (list DrawnLine)) (s : State) : State :=
  mkState (divisions s) (rules s) (drawingMode s) (drawingColor s)
    (showRuleLines s) (showOnlyPattern s) (currentRule s) (isDrawing s)
    (startPoint s) (drawnLines s) (undoStack s) v (showInstructions s)
    (lineThickness s) (freeDrawing s) (showRuleExplanation s)
    (canvasRef s) (ctxRef s).

Definition setLineThickness (v : Z) (s : State) : State :=
  mkState (divisions s) (rules s) (drawingMode s) (drawingColor s)
    (showRuleLines s) (showOnlyPattern s) (currentRule s) (isDrawing s)
    (startPoint s) (drawnLines s) (undoStack s) (redoStack s)
    (showInstructions s) v (freeDrawing s) (showRuleExplanation s)
    (canvasRef s) (ctxRef s).

Definition setFreeDrawing (v : bool) (s : State) : State :=
  mkState (divisions s) (rules s) (drawingMode s) (drawingColor s)
    (showRuleLines s) (showOnlyPattern s) (currentRule s) (isDrawing s)
    (startPoint s) (drawnLines s) (undoStack s) (redoStack s)
    (showInstructions s) (lineThickness s) v (showRuleExplanation s)
    (canvasRef s) (ctxRef s).

(** The refs after the canvas element is mounted and the first effect has
    stored its 2D context. *)
Definition setRefs (canvas ctx : bool) (s : State) : State :=
  mkState (divisions s) (rules s) (drawingMode s) (drawingColor s)
    (showRuleLines s) (showOnlyPattern s) (currentRule s) (isDrawing s)
    (startPoint s) (drawnLines s) (undoStack s) (redoStack s)
    (showInstructions s) (lineThickness s) (freeDrawing s)
    (showRuleExplanation s) canvas ctx.

(** The [useState] defaults; both refs are still null. *)
Definition initialState : State :=
  mkState 12 [] false "#000000" true false "" false None [] [] [] true 2
    false false false false.

(** ** Effects: calls on the 2D context, [alert], an uncaught exception *)

Inductive FillStyle : Type :=
| CssColor (c : string)
| RadialGradient (x0 y0 r0 x1 y1 r1 : float) (stops : list (float * string)).

Inductive CanvasCmd : Type :=
| clearRect (x y w h : float)
| fillRect (x y w h : float)
| set_fillStyle (f : FillStyle)
| set_strokeStyle (c : string)
| set_lineWidth (w : Z)
| set_lineCap (c : string)
| set_font (f : string)
| set_textAlign (a : string)
| set_textBaseline (b : string)
| beginPath
| moveTo (x y : float)
| lineTo (x y : float)
| arc (x y r startAngle endAngle : float)
| stroke
| fill
| fillText (text : string) (x y : float).

Inductive Effect : Type :=
| Canvas (c : CanvasCmd)
| Alert (message : string)
| TypeError.

(** A pointer event as the handlers read it: [event.clientX],
    [event.clientY], and the [left] and [top] of
    [canvas.getBoundingClientRect()] at that moment. *)
Record MouseEvent : Type := mkMouseEvent {
  clientX : float;
  clientY : float;
  rectLeft : float;
  rectTop : float
}.

(** ** The component *)

Section CircleDivider.

Context {M : JS.MathLib}.

Local Open Scope float_scope.

Definition canvasSize : float := 800.
Definition radius : float := canvasSize / 2.5.
Definition center : float := canvasSize / 2.
Definition ruleLineColor : string := "#4A5568".
Definition dotRadius : float := 5.
Definition fontSize : Z := 16.

(** [`${fontSize}px Arial`] *)
Definition font : string := (JS.toString fontSize ++ "px Arial")%string.

(** *** Geometry *)

(** The angle of division point [i] as [drawCircle] and [snapToPoint]
    compute it: degrees first, then radians. *)
Definition divisionRadian (n i : Z) : float :=
  let angle := (JS.toFloat i * 360) / JS.toFloat n in
  (angle * JS.Math_PI) / 180.

(** The point [(pointX, pointY)] of [snapToPoint], [(dotX, dotY)] of
    [drawCircle]. *)
Definition divisionPoint (n i : Z) : Point :=
  let radian := divisionRadian n i in
  Point.mk (center + radius * JS.Math_cos radian)
           (center + radius * JS.Math_sin radian).

(** [Math.sqrt(Math.pow(x - pointX, 2) + Math.pow(y - pointY, 2))] *)
Definition distance (x y : float) (p : Point) : float :=
  JS.Math_sqrt (JS.Math_pow (x - Point.x p) 2 + JS.Math_pow (y - Point.y p) 2).

(** One iteration of the loop of [snapToPoint] on the pair
    [(closestPoint, minDistance)]. *)
Definition snapStep (n : Z) (x y : float) (acc : Point * float) (i : nat)
  : Point * float :=
  let p := divisionPoint n (Z.of_nat i) in
  let d := distance x y p in
  if d <? snd acc then (p, d) else acc.

(** [for (let i = 0; i < divisions; i++)] from the initial pair
    [({x, y}, Infinity)]. *)
Definition snapLoop (n : Z) (x y : float) (k : nat) : Point * float :=
  fold_left (snapStep n x y) (seq 0 k) (Point.mk x y, infinity).

Definition snapToPoint (n : Z) (x y : float) : Point :=
  let '(closestPoint, minDistance) := snapLoop n x y (Z.to_nat n) in
  if minDistance <=? 20 then closestPoint else Point.mk x y.

(** *** What snapping is to achieve *)

(** The distance the loop computes for division point [i]. *)
Definition dist (n : Z) (x y : float) (i : nat) : float :=
  distance x y (divisionPoint n (Z.of_nat i)).

(** [j] is the first index at which the computed distance is least: no
    division point is nearer, every earlier one is farther or has no
    distance ([NaN]). *)
Definition firstNearest (n : Z) (x y : float) (j : nat) : Prop :=
  (j < Z.to_nat n)%nat /\
  (forall i, (i < Z.to_nat n)%nat -> (dist n x y i <? dist n x y j) = false) /\
  (forall i, (i < j)%nat -> (dist n x y i <=? dist n x y j) = false).


(** *** Rules *)

(** [rule.split('+').map(n => parseInt(n.trim()))] destructured into its
    first two elements. *)
Definition parseRule (rule : string) : option Z * option Z :=
  let parts := map (fun n => JS.parseInt (JS.trim n)) (JS.split "+" rule) in
  (nth 0 parts None, nth 1 parts None).

(** [a % b] on integer-valued numbers, as a binary64: the remainder has
    the sign of the dividend (a zero one included), and [a % 0] is [NaN]. *)
Definition remainder (a b : Z) : float :=
  if (b =? 0)%Z then nan
  else if ((a <? 0) && (Z.rem a b =? 0))%Z then neg_zero
  else JS.toFloat (Z.rem a b).

(** The angle at which [drawRuleLines] places division point [i]:
    [(i / divisions) * 2 * Math.PI]. *)
Definition ruleStartAngle (n i : Z) : float :=
  JS.toFloat i / JS.toFloat n * 2 * JS.Math_PI.

(** [((i + offset) % divisions / divisions) * 2 * Math.PI]; a [NaN]
    offset makes the angle [NaN]. *)
Definition ruleEndAngle (n : Z) (offset : option Z) (i : Z) : float :=
  match offset with
  | Some o => remainder (i + o) n / JS.toFloat n * 2 * JS.Math_PI
  | None => nan
  end.

Definition pointAt (a : float) : Point :=
  Point.mk (center + radius * JS.Math_cos a) (center + radius * JS.Math_sin a).

(** The division point [i] as [drawRuleLines] locates it. *)
Definition ruleDivisionPoint (n i : Z) : Point := pointAt (ruleStartAngle n i).

(** The body of the inner loop of [drawRuleLines]. *)
Definition ruleSegment (n : Z) (offset : option Z) (i : nat) : list CanvasCmd :=
  let p := ruleDivisionPoint n (Z.of_nat i) in
  let q := pointAt (ruleEndAngle n offset (Z.of_nat i)) in
  [beginPath; moveTo (Point.x p) (Point.y p); lineTo (Point.x q) (Point.y q);
   stroke].

Definition drawRule (n : Z) (rule : string) : list CanvasCmd :=
  let '(start, offset) := parseRule rule in
  flat_map (ruleSegment n offset) (seq 0 (Z.to_nat n)).

Definition drawRuleLines (s : State) : list CanvasCmd :=
  set_strokeStyle ruleLineColor :: flat_map (drawRule (divisions s)) (rules s).

(** *** Scene composition *)

Definition drawDot (n : Z) (i : nat) : list CanvasCmd :=
  let radian := divisionRadian n (Z.of_nat i) in
  let dotX := center + radius * JS.Math_cos radian in
  let dotY := center + radius * JS.Math_sin radian in
  let textX := center + (radius + 20) * JS.Math_cos radian in
  let textY := center + (radius + 20) * JS.Math_sin radian in
  [beginPath; set_fillStyle (CssColor ruleLineColor);
   arc dotX dotY dotRadius 0 (2 * JS.Math_PI); fill;
   set_fillStyle (CssColor ruleLineColor);
   fillText (JS.toString (Z.of_nat i)) textX textY].

Definition drawLine (line : DrawnLine) : list CanvasCmd :=
  [beginPath; set_strokeStyle (DrawnLine.color line);
   set_lineWidth (DrawnLine.thickness line);
   moveTo (Point.x (DrawnLine.start line)) (Point.y (DrawnLine.start line));
   lineTo (Point.x (DrawnLine.end_ line)) (Point.y (DrawnLine.end_ line));
   stroke].

Definition background : FillStyle :=
  RadialGradient center center 0 center center (canvasSize / 2)
    [(0, "#f7fafc"%string); (1, "#edf2f7"%string)].

(** [drawCircle]: the calls it makes on the context, none without one. *)
Definition drawCircle (s : State) : list CanvasCmd :=
  if negb (ctxRef s) then []
  else
    [clearRect 0 0 canvasSize canvasSize; set_fillStyle background;
     fillRect 0 0 canvasSize canvasSize]
    ++ (if negb (showOnlyPattern s)
        then [beginPath; set_strokeStyle ruleLineColor; set_lineWidth 2;
              arc center center radius 0 (2 * JS.Math_PI); stroke;
              set_font font; set_textAlign "center";
              set_textBaseline "middle"]
             ++ flat_map (drawDot (divisions s))
                  (seq 0 (Z.to_nat (divisions s)))
        else [])
    ++ (if showRuleLines s then drawRuleLines s else [])
    ++ flat_map drawLine (drawnLines s).

(** The body of the [useEffect]: with a mounted canvas, store its context
    ([getContext('2d')] of a canvas element) and compose the scene. *)
Definition effect (s : State) : State * list Effect :=
  if canvasRef s
  then let s' := setRefs true true s in
       (s', map Canvas ([set_lineCap "round"; set_lineWidth 2] ++ drawCircle s'))
  else (s, []).

(** *** Strokes *)

Definition pointerX (e : MouseEvent) : float := clientX e - rectLeft e.
Definition pointerY (e : MouseEvent) : float := clientY e - rectTop e.

Definition startDrawing (s : State) (e : MouseEvent) : State * list Effect :=
  if negb (drawingMode s) then (s, [])
  else if negb (canvasRef s) then (s, [])
  else
    let x := pointerX e in
    let y := pointerY e in
    if freeDrawing s
    then (setIsDrawing true s,
          if ctxRef s then [Canvas beginPath; Canvas (moveTo x y)] else [])
    else (setIsDrawing true
            (setStartPoint (Some (snapToPoint (divisions s) x y)) s), []).

(** [draw]: in point-to-point mode the preview reads [startPoint!], which
    throws when the start point is null. *)
Definition draw (s : State) (e : MouseEvent) : State * list Effect :=
  if negb (isDrawing s) || negb (drawingMode s) then (s, [])
  else if negb (canvasRef s) || negb (ctxRef s) then (s, [])
  else
    let x := pointerX e in
    let y := pointerY e in
    if freeDrawing s
    then (s, [Canvas (lineTo x y); Canvas stroke])
    else
      (s, map Canvas (drawCircle s) ++ [Canvas beginPath] ++
          match startPoint s with
          | Some p =>
              let q := snapToPoint (divisions s) x y in
              [Canvas (moveTo (Point.x p) (Point.y p));
               Canvas (lineTo (Point.x q) (Point.y q)); Canvas stroke]
          | None => [TypeError]
          end).

(** The three statements that end [stopDrawing]. *)
Definition endStroke (s : State) : State * list Effect :=
  (setStartPoint None (setIsDrawing false s),
   if ctxRef s then [Canvas beginPath] else []).

Definition stopDrawing (s : State) (e : MouseEvent) : State * list Effect :=
  if negb (isDrawing s) then (s, [])
  else
    match freeDrawing s, startPoint s with
    | false, Some p =>
        if negb (canvasRef s) then (s, [])
        else
          let x := pointerX e in
          let y := pointerY e in
          let endPoint := snapToPoint (divisions s) x y in
          let newLine :=
            DrawnLine.mk p endPoint (drawingColor s) (lineThickness s) in
          endStroke (setDrawnLines (drawnLines s ++ [newLine]) s)
    | _, _ => endStroke s
    end.

(** *** Rule set *)

Definition invalidRuleMessage : string :=
  ("Invalid rule format. Please use " ++ JS.quote ++ "start+end" ++ JS.quote
   ++ " where both are valid division numbers.")%string.

(** The guard of [handleAddRule]:
    [!isNaN(start) && !isNaN(end) && start >= 0 && end >= 0 &&
     start < divisions && end < divisions]. *)
Definition validRule (n : Z) (start end_ : option Z) : bool :=
  negb (JS.isNaN start) && negb (JS.isNaN end_) &&
  JS.geb start 0 && JS.geb end_ 0 && JS.ltb start n && JS.ltb end_ n.

(** The template string [`${start}+${end}`]. *)
Definition ruleString (start end_ : option Z) : string :=
  (JS.numberToString start ++ "+" ++ JS.numberToString end_)%string.

(** [rules.includes(newRule)] *)
Definition includes (l : list string) (r : string) : bool :=
  existsb (String.eqb r) l.

Definition handleAddRule (s : State) : State * list Effect :=
  let '(start, end_) := parseRule (currentRule s) in
  if validRule (divisions s) start end_
  then
    let newRule := ruleString start end_ in
    if negb (includes (rules s) newRule)
    then (setCurrentRule "" (setRules (rules s ++ [newRule]) s), [])
    else (s, [])
  else (s, [Alert invalidRuleMessage]).

Definition handleRemoveRule (s : State) (ruleToRemove : string) : State :=
  setRules (filter (fun rule => negb (String.eqb rule ruleToRemove)) (rules s)) s.

(** *** History *)

(** [stack[stack.length - 1]]; [removelast] is [stack.slice(0, -1)]. *)
Definition top (stack : list (list DrawnLine)) : list DrawnLine :=
  last stack [].

Definition handleUndo (s : State) : State :=
  if (0 <? List.length (undoStack s))%nat
  then
    let previousState := top (undoStack s) in
    setUndoStack (removelast (undoStack s))
      (setDrawnLines previousState
         (setRedoStack (redoStack s ++ [drawnLines s]) s))
  else s.

Definition handleRedo (s : State) : State :=
  if (0 <? List.length (redoStack s))%nat
  then
    let nextState := top (redoStack s) in
    setRedoStack (removelast (redoStack s))
      (setDrawnLines nextState
         (setUndoStack (undoStack s ++ [drawnLines s]) s))
  else s.

(** The three updates of [handleResetDrawing], computed from the state
    [s] its closure reads and queued on the pending state [t]. *)
Definition resetDrawing (s t : State) : State :=
  setRedoStack []
    (setDrawnLines []
       (setUndoStack (undoStack s ++ [drawnLines s]) t)).

Definition handleResetDrawing (s : State) : State := resetDrawing s s.

Definition handleResetAll (s : State) : State :=
  resetDrawing s
    (setShowOnlyPattern false
       (setShowRuleLines true
          (setDrawingColor "#000000"
             (setDrawingMode false
                (setRules [] (setDivisions 12 s)))))).

(** The inline handlers of the controls the scenarios below use. *)
Definition toggleDrawingMode (s : State) : State :=
  setDrawingMode (negb (drawingMode s)) s.

Definition toggleFreeDrawing (s : State) : State :=
  setFreeDrawing (negb (freeDrawing s)) s.

End CircleDivider.

(** ** Reading a list of canvas calls

    The straight segments a list of calls strokes: [beginPath] empties
    the current path, [moveTo] moves the pen, [lineTo] adds the segment
    from the pen to its argument (and only moves the pen when there is
    none yet), [stroke] paints the segments of the current path. *)

Record Pen : Type := mkPen {
  path : list (Point * Point);
  pen : option Point;
  stroked : list (Point * Point)
}.

Definition penStep (st : Pen) (c : CanvasCmd) : Pen :=
  match c with
  | beginPath => mkPen [] None (stroked st)
  | moveTo x y => mkPen (path st) (Some (Point.mk x y)) (stroked st)
  | lineTo x y =>
      match pen st with
      | Some p => mkPen (path st ++ [(p, Point.mk x y)])
                    (Some (Point.mk x y)) (stroked st)
      | None => mkPen (path st) (Some (Point.mk x y)) (stroked st)
      end
  | stroke => mkPen (path st) (pen st) (stroked st ++ path st)
  | _ => st
  end.

(** The calls that stroke the one segment [pq]. *)
Definition block (pq : Point * Point) : list CanvasCmd :=
  [beginPath; moveTo (Point.x (fst pq)) (Point.y (fst pq));
   lineTo (Point.x (snd pq)) (Point.y (snd pq)); stroke].

Definition strokedSegments (cmds : list CanvasCmd) : list (Point * Point) :=
  stroked (fold_left penStep cmds (mkPen [] None [])).

(** ** The rule text as the specification reads it

    A token is a valid non-negative integer when it is a non-empty string
    of decimal digits; a rule text is rejected when one of its two
    [+]-separated tokens is not, or when the start or the offset is not
    below the division count. *)

Definition isDecimalDigit (c : ascii) : bool :=
  let k := nat_of_ascii c in ((48 <=? k) && (k <=? 57))%nat.

Fixpoint allDecimal (t : string) : bool :=
  match t with
  | EmptyString => true
  | String c r => isDecimalDigit c && allDecimal r
  end.

Definition isDecimalToken (t : string) : bool :=
  negb (String.eqb t "") && allDecimal t.

Definition specRejects (n : Z) (text : string) : bool :=
  match JS.split "+" text with
  | [t1; t2] =>
      negb (isDecimalToken t1) || negb (isDecimalToken t2) ||
      negb (JS.ltb (JS.parseInt t1) n) || negb (JS.ltb (JS.parseInt t2) n)
  | _ => true
  end.

(** A parsed number that the guard of [handleAddRule] refuses: [NaN],
    negative, or not below the division count. *)
Definition refused (n : Z) (v : option Z) : Prop :=
  match v with
  | Some z => (z < 0 \/ n <= z)%Z
  | None => True
  end.

(** Whether [handleAddRule] reports a failure. *)
Definition addRuleFails (s : State) : bool :=
  match snd (handleAddRule s) with
  | [] => false
  | _ :: _ => true
  end.

(** ** A Math library to run the model with

    Taylor polynomials for [cos] and [sin] on the angles of a turn, the
    product for a square. *)

Module ReferenceMath.

Local Open Scope float_scope.

Fixpoint series (k : nat) (shift : Z) (x2 acc : float) : float :=
  match k with
  | O => acc
  | S k' =>
      let m := JS.toFloat (2 * Z.of_nat k + shift) in
      series k' shift x2 (1 - x2 / ((m - 1) * m) * acc)
  end.

Definition reduce (a : float) : float :=
  if JS.Math_PI <? a then a - 2 * JS.Math_PI else a.

Definition cos (a : float) : float :=
  let r := reduce a in series 16 0 (r * r) 1.

Definition sin (a : float) : float :=
  let r := reduce a in r * series 16 1 (r * r) 1.

Definition pow (b e : float) : float :=
  if e =? 2 then b * b
  else if e =? 1 then b
  else if e =? 0 then 1
  else nan.

Definition lib : JS.MathLib := JS.Build_MathLib cos sin pow.

End ReferenceMath.

(** ** Sample states and events *)

(** The component once mounted: default hooks, both refs set. *)
Definition mounted : State := setRefs true true initialState.

Definition pointerAt (x y : float) : MouseEvent := mkMouseEvent x y 0 0.

(** Drawing mode switched on, then Reset Drawing and Undo: the redo stack
    holds one (empty) snapshot, the undo stack none. *)
Definition afterResetAndUndo : State :=
  handleUndo (handleResetDrawing (toggleDrawingMode mounted)).

(** The pointer pressed near division point 0, point-to-point mode. *)
Definition strokeInProgress : State :=
  fst (startDrawing (M := ReferenceMath.lib) afterResetAndUndo
         (pointerAt 715 405)).

(** The same press in freehand mode. *)
Definition freehandInProgress : State :=
  fst (startDrawing (M := ReferenceMath.lib)
         (toggleFreeDrawing (toggleDrawingMode mounted)) (pointerAt 715 405)).

(** One point-to-point stroke: press at [a], release at [b]. *)
Definition strokeFromTo `{M : JS.MathLib} (s : State) (a b : MouseEvent)
  : State :=
  fst (stopDrawing (fst (startDrawing s a)) b).


(** ** History as a timeline

    The snapshots a sequence of undos would walk through, oldest first,
    then the manual layer, then the snapshots a sequence of redos would
    walk through. *)
Definition timeline (s : State) : list (list DrawnLine) :=
  undoStack s ++ [drawnLines s] ++ rev (redoStack s).

(** ** The controls of the page *)

Definition setShowInstructions (v : bool) (s : State) : State :=
  mkState (divisions s) (rules s) (drawingMode s) (drawingColor s)
    (showRuleLines s) (showOnlyPattern s) (currentRule s) (isDrawing s)
    (startPoint s) (drawnLines s) (undoStack s) (redoStack s) v
    (lineThickness s) (freeDrawing s) (showRuleExplanation s)
    (canvasRef s) (ctxRef s).

Definition setShowRuleExplanation (v : bool) (s : State) : State :=
  mkState (divisions s) (rules s) (drawingMode s) (drawingColor s)
    (showRuleLines s) (showOnlyPattern s) (currentRule s) (isDrawing s)
    (startPoint s) (drawnLines s) (undoStack s) (redoStack s)
    (showInstructions s) (lineThickness s) (freeDrawing s) v
    (canvasRef s) (ctxRef s).

(** What the user (or React, for [Mount]) can do to the component: the
    event handlers of the JSX returned by [CircleDivider].  A slider
    delivers an integer between its [min] and its [max]; [ClickRemove k]
    is the Remove button of the [k]-th listed rule. *)
Inductive Action : Type :=
| Mount
| MouseDown (e : MouseEvent)
| MouseMove (e : MouseEvent)
| MouseUp (e : MouseEvent)
| MouseLeave (e : MouseEvent)
| ToggleDrawingMode
| ToggleFreeDrawing
| PickColor (c : string)
| SlideThickness (v : Z)
| ClickUndo
| ClickRedo
| ClickResetDrawing
| SlideDivisions (v : Z)
| ToggleRuleExplanation
| TypeRule (text : string)
| ClickAddRule
| ClickRemove (k : nat)
| ToggleShowRuleLines
| ToggleShowOnlyPattern
| ClickResetAll
| ClickShowInstructions
| ClickGotIt.

Section Page.

Context {M : JS.MathLib}.

Local Open Scope Z_scope.

Definition when (b : bool) (r : State * list Effect)
  : option (State * list Effect) :=
  if b then Some r else None.

(** One action on the page; [None] when the control is not there: the
    canvas before it is mounted, the drawing options outside drawing
    mode, the divisions and rules panel inside it, a disabled Undo or
    Redo button, a slider value outside its range, a rule that is not
    listed, the button of the closed instructions. *)
Definition perform (s : State) (a : Action) : option (State * list Effect) :=
  match a with
  | Mount => when (negb (canvasRef s)) (effect (setRefs true (ctxRef s) s))
  | MouseDown e => when (canvasRef s) (startDrawing s e)
  | MouseMove e => when (canvasRef s) (draw s e)
  | MouseUp e => when (canvasRef s) (stopDrawing s e)
  | MouseLeave e => when (canvasRef s) (stopDrawing s e)
  | ToggleDrawingMode => Some (toggleDrawingMode s, [])
  | ToggleFreeDrawing => when (drawingMode s) (toggleFreeDrawing s, [])
  | PickColor c => when (drawingMode s) (setDrawingColor c s, [])
  | SlideThickness v =>
      when (drawingMode s && (1 <=? v) && (v <=? 10)) (setLineThickness v s, [])
  | ClickUndo =>
      when (drawingMode s && (0 <? List.length (undoStack s))%nat)
        (handleUndo s, [])
  | ClickRedo =>
      when (drawingMode s && (0 <? List.length (redoStack s))%nat)
        (handleRedo s, [])
  | ClickResetDrawing => when (drawingMode s) (handleResetDrawing s, [])
  | SlideDivisions v =>
      when (negb (drawingMode s) && (3 <=? v) && (v <=? 36))
        (setDivisions v s, [])
  | ToggleRuleExplanation =>
      when (negb (drawingMode s))
        (setShowRuleExplanation (negb (showRuleExplanation s)) s, [])
  | TypeRule text => when (negb (drawingMode s)) (setCurrentRule text s, [])
  | ClickAddRule => when (negb (drawingMode s)) (handleAddRule s)
  | ClickRemove k =>
      match nth_error (rules s) k with
      | Some rule => when (negb (drawingMode s)) (handleRemoveRule s rule, [])
      | None => None
      end
  | ToggleShowRuleLines => Some (setShowRuleLines (negb (showRuleLines s)) s, [])
  | ToggleShowOnlyPattern =>
      Some (setShowOnlyPattern (negb (showOnlyPattern s)) s, [])
  | ClickResetAll => Some (handleResetAll s, [])
  | ClickShowInstructions => Some (setShowInstructions true s, [])
  | ClickGotIt => when (showInstructions s) (setShowInstructions false s, [])
  end.

(** A session: the actions one after the other, the effects in order. *)
Fixpoint run (s : State) (acts : list Action) : option (State * list Effect) :=
  match acts with
  | [] => Some (s, [])
  | a :: rest =>
      match perform s a with
      | Some (s1, effs1) =>
          match run s1 rest with
          | Some (s2, effs2) => Some (s2, effs1 ++ effs2)
          | None => None
          end
      | None => None
      end
  end.

(** The states a session that starts with the [useState] defaults can be
    in. *)
Definition reachable (s : State) : Prop :=
  exists acts effs, run initialState acts = Some (s, effs).

(** The text of a rule that [handleAddRule] stored while the division
    count was at most [bound]. *)
Definition canonicalRule (bound : Z) (r : string) : Prop :=
  exists a b, 0 <= a < bound /\ 0 <= b < bound /\
              r = ruleString (Some a) (Some b).

Definition wellFormed (s : State) : Prop :=
  3 <= divisions s <= 36 /\
  1 <= lineThickness s <= 10 /\
  NoDup (rules s) /\
  Forall (canonicalRule 36) (rules s) /\
  (startPoint s <> None -> isDrawing s = true).

(** The pointer moving over the canvas: [draw] once per event. *)
Definition drag (s : State) (moves : list MouseEvent) : State * list Effect :=
  fold_left (fun acc e => (fst (draw (fst acc) e), snd acc ++ snd (draw (fst acc) e)))
    moves (s, []).

(** Press at [a], move along [moves], release at [b]. *)
Definition strokeWithMoves (s : State) (a : MouseEvent)
  (moves : list MouseEvent) (b : MouseEvent) : State :=
  fst (stopDrawing (fst (drag (fst (startDrawing s a)) moves)) b).

(** The segments one rule contributes to the scene, whatever its text. *)
Definition ruleSegments (n : Z) (rule : string) : list (Point * Point) :=
  map (fun i => (ruleDivisionPoint n (Z.of_nat i),
                 pointAt (ruleEndAngle n (snd (parseRule rule)) (Z.of_nat i))))
    (seq 0 (Z.to_nat n)).

Definition lineSegment (l : DrawnLine) : Point * Point :=
  (DrawnLine.start l, DrawnLine.end_ l).

End Page.

(** The calls on the canvas among the effects of a handler. *)
Definition canvasCalls (effs : list Effect) : list CanvasCmd :=
  flat_map (fun e => match e with Canvas c => [c] | _ => [] end) effs.

(** ** Checking the angles over the range of the divisions slider *)

(** The integers from [a] up to, not including, [b]. *)
Definition range (a b : Z) : list Z :=
  map (fun k => (a + Z.of_nat k)%Z) (seq 0 (Z.to_nat (b - a))).

(** For every division count on the slider and every index below it. *)
Definition onSlider (check : Z -> Z -> bool) : bool :=
  forallb (fun n => forallb (check n) (range 0 n)) (range 3 37).

(** Two binary64 values at most two units in the last place apart. *)
Definition withinTwoUlps (a b : float) : bool :=
  PrimFloat.Leibniz.eqb a b ||
  PrimFloat.Leibniz.eqb (next_up a) b ||
  PrimFloat.Leibniz.eqb (next_down a) b ||
  PrimFloat.Leibniz.eqb (next_up (next_up a)) b ||
  PrimFloat.Leibniz.eqb (next_down (next_down a)) b.

(** The angle of division point [i] is a number from 0 up to, not
    including, a full turn, and below the angle of the next index. *)
Definition angleInTurn (angle : Z -> Z -> float) (n i : Z) : bool :=
  PrimFloat.leb 0%float (angle n i) &&
  PrimFloat.ltb (angle n i) (2 * JS.Math_PI)%float &&
  PrimFloat.ltb (angle n i) (angle n (i + 1)%Z).

(** White space only. *)
Fixpoint allWhite (t : string) : bool :=
  match t with
  | EmptyString => true
  | String c r => JS.isWhiteSpace c && allWhite r
  end.

(** The calls that add a straight segment to the current path. *)
Definition isLineTo (c : CanvasCmd) : bool :=
  match c with lineTo _ _ => true | _ => false end.

(** No [+] in the text. *)
Fixpoint noPlus (t : string) : bool :=
  match t with
  | EmptyString => true
  | String c r => negb (Ascii.eqb c "+") && noPlus r
  end.

(** ** Sample sessions *)

(** A rule added at 36 divisions, the slider then moved back to 12. *)
Definition staleRuleSession : list Action :=
  [Mount; SlideDivisions 36; TypeRule "0+30"; ClickAddRule; SlideDivisions 12].

(** Two rules and one manual line on the mounted component. *)
Definition sampleScene : State :=
  setDrawnLines
    [DrawnLine.mk (Point.mk 720 400) (Point.mk 400 720) "#ff0000" 3]
    (setRules ["0+1"; "0+5"]%string (setDivisions 4 mounted)).

(** ** The metric of the specification

    The Euclidean distance from the raw point [(x, y)] to the point [p],
    the square root of the sum of the squared coordinate differences,
    evaluated in binary64; and the index the specification asks
    [snapToPoint] for: the first one, in the order 0..N-1, whose
    division point is at the least Euclidean distance. *)

Section Metric.

Context {M : JS.MathLib}.

Local Open Scope float_scope.




End Metric.
(** * Properties

    ** IEEE-754 comparisons *)

Module FloatFacts.

Import FloatOrder.

Local Open Scope float_scope.

Ltac cmp_cases :=
  repeat match goal with
  | s : bool |- _ => destruct s
  | H : Some _ = Some _ |- _ => inversion H; clear H
  | H : context [Pos.compare_cont Eq ?p ?q] |- _ =>
      change (Pos.compare_cont Eq p q) with (Pos.compare p q) in H
  | |- context [Pos.compare_cont Eq ?p ?q] =>
      change (Pos.compare_cont Eq p q) with (Pos.compare p q)
  | H : context [Z.compare ?a ?b] |- _ =>
      destruct (Z.compare_spec a b); subst
  | H : context [Pos.compare ?a ?b] |- _ =>
      destruct (Pos.compare_spec a b); subst
  | |- context [Z.compare ?a ?b] =>
      destruct (Z.compare_spec a b); subst
  | |- context [Pos.compare ?a ?b] =>
      destruct (Pos.compare_spec a b); subst
  end;
  simpl in *; try congruence; try lia.

Lemma sf_lt_irrefl (a : spec_float) : ~ sf_lt a a.
Proof.
  unfold sf_lt; destruct a; simpl; try congruence; cmp_cases.
Qed.


Lemma sf_le_lt_trans (a b c : spec_float) : sf_le a b -> sf_lt b c -> sf_lt a c.
Proof.
  unfold sf_le, sf_lt; destruct a, b, c; simpl; intros [H1 | H1] H2;
    try congruence; cmp_cases.
Qed.

Lemma sf_total (a b : spec_float) :
  a <> S754_nan -> b <> S754_nan -> sf_le a b \/ sf_lt b a.
Proof.
  unfold sf_le, sf_lt; destruct a, b; simpl; intros Ha Hb;
    try congruence; cmp_cases; auto.
Qed.

Lemma sf_lt_not_nan_l (a b : spec_float) : sf_lt a b -> a <> S754_nan.
Proof. unfold sf_lt; destruct a; simpl; congruence. Qed.

Lemma sf_le_not_nan_l (a b : spec_float) : sf_le a b -> a <> S754_nan.
Proof. unfold sf_le; destruct a; simpl; intros [H | H]; congruence. Qed.

Lemma sf_le_not_nan_r (a b : spec_float) : sf_le a b -> b <> S754_nan.
Proof.
  unfold sf_le; destruct a, b; simpl; intros [H | H]; congruence.
Qed.

Lemma ltb_sf (a b : float) : (a <? b) = true <-> sf_lt (Prim2SF a) (Prim2SF b).
Proof.
  rewrite ltb_spec; unfold SFltb, sf_lt.
  destruct (SFcompare (Prim2SF a) (Prim2SF b)) as [[ | | ] | ];
    split; congruence.
Qed.

Lemma leb_sf (a b : float) : (a <=? b) = true <-> sf_le (Prim2SF a) (Prim2SF b).
Proof.
  rewrite leb_spec; unfold SFleb, sf_le.
  destruct (SFcompare (Prim2SF a) (Prim2SF b)) as [[ | | ] | ];
    split; try congruence; auto; intros [H | H]; congruence.
Qed.



Lemma leb_ltb_trans (a b c : float) :
  (a <=? b) = true -> (b <? c) = true -> (a <? c) = true.
Proof. rewrite leb_sf, !ltb_sf. apply sf_le_lt_trans. Qed.

(** On two numbers [<=] and [>] are complementary; the left operand of a
    true comparison is a number. *)
Lemma leb_false_ltb (a b c d : float) :
  (a <? c) = true -> (d <=? b) = true -> (a <=? b) = false -> (b <? a) = true.
Proof.
  intros Ha Hb Hab.
  apply ltb_sf, sf_lt_not_nan_l in Ha.
  apply leb_sf, sf_le_not_nan_r in Hb.
  destruct (sf_total Ha Hb) as [H | H].
  - apply leb_sf in H. congruence.
  - now apply ltb_sf.
Qed.

End FloatFacts.

(** ** The JavaScript fragment on examples *)

Example split_rule : JS.split "+" "0+3" = ["0"; "3"]%string.
Proof. reflexivity. Qed.

Example split_no_plus : JS.split "+" "5" = ["5"]%string.
Proof. reflexivity. Qed.

Example parseInt_examples :
  JS.parseInt "12" = Some 12%Z /\ JS.parseInt "" = None /\
  JS.parseInt "abc" = None /\ JS.parseInt "3abc" = Some 3%Z /\
  JS.parseInt "1.5" = Some 1%Z /\ JS.parseInt "-4" = Some (-4)%Z /\
  JS.parseInt "0x1f" = Some 31%Z /\ JS.parseInt (JS.trim "  7 ") = Some 7%Z.
Proof. repeat split; reflexivity. Qed.

Example toString_examples :
  JS.toString 0 = "0"%string /\ JS.toString 36 = "36"%string /\
  JS.toString 1205 = "1205"%string /\ JS.toString (-7) = "-7"%string.
Proof. repeat split; reflexivity. Qed.

(** ** Printing an integer and parsing it back *)

Module JSFacts.

Import JS.
Local Open Scope Z_scope.

Lemma digit_cases (d : Z) :
  0 <= d < 10 ->
  d = 0 \/ d = 1 \/ d = 2 \/ d = 3 \/ d = 4 \/ d = 5 \/ d = 6 \/ d = 7 \/
  d = 8 \/ d = 9.
Proof. lia. Qed.

Ltac each_digit d H :=
  destruct (digit_cases H) as
    [-> | [-> | [-> | [-> | [-> | [-> | [-> | [-> | [-> | ->]]]]]]]]].

Lemma digitValue_digitChar (d : Z) :
  0 <= d < 10 -> digitValue (digitChar d) = Some d.
Proof. intros H. each_digit d H; reflexivity. Qed.

Lemma isDecimalDigit_digitChar (d : Z) :
  0 <= d < 10 -> isDecimalDigit (digitChar d) = true.
Proof. intros H. each_digit d H; reflexivity. Qed.

(** A decimal digit is no white space, no sign, no [x], no [+]. *)
Lemma isDecimalDigit_plain (c : ascii) :
  isDecimalDigit c = true ->
  isWhiteSpace c = false /\ Ascii.eqb c "-" = false /\
  Ascii.eqb c "+" = false /\ Ascii.eqb c "x" = false /\
  Ascii.eqb c "X" = false.
Proof.
  unfold isDecimalDigit, isWhiteSpace. cbv zeta. intros H.
  apply andb_true_iff in H. destruct H as [H1 H2].
  apply Nat.leb_le in H1. apply Nat.leb_le in H2.
  repeat split.
  - repeat (apply orb_false_iff; split); apply Nat.eqb_neq; lia.
  - apply Ascii.eqb_neq. intros ->. compute in H1, H2. lia.
  - apply Ascii.eqb_neq. intros ->. compute in H1, H2. lia.
  - apply Ascii.eqb_neq. intros ->. compute in H1, H2. lia.
  - apply Ascii.eqb_neq. intros ->. compute in H1, H2. lia.
Qed.

Lemma allDecimal_decimal (fuel : nat) :
  forall n acc, 0 <= n -> allDecimal acc = true ->
  allDecimal (decimal fuel n acc) = true.
Proof.
  induction fuel as [ | fuel IH]; intros n acc Hn Hacc; cbn [decimal]; auto.
  assert (Hd : 0 <= n mod 10 < 10) by (apply Z.mod_pos_bound; lia).
  assert (Hacc' : allDecimal (String (digitChar (n mod 10)) acc) = true).
  { cbn [allDecimal]. now rewrite (isDecimalDigit_digitChar Hd). }
  destruct (n <? 10).
  - exact Hacc'.
  - apply IH; [ apply Z.div_pos; lia | exact Hacc' ].
Qed.

Lemma decimal_nonempty (fuel : nat) :
  forall n acc, acc <> EmptyString -> decimal fuel n acc <> EmptyString.
Proof.
  induction fuel as [ | fuel IH]; intros n acc Hacc; simpl; auto.
  destruct (n <? 10); [ discriminate | ].
  apply IH. discriminate.
Qed.

Lemma decimal_S_nonempty (fuel : nat) (n : Z) :
  decimal (S fuel) n EmptyString <> EmptyString.
Proof.
  simpl. destruct (n <? 10); [ discriminate | ].
  apply decimal_nonempty. discriminate.
Qed.

Lemma parseDigits_decimal (fuel : nat) :
  forall n acc a, (0 < fuel)%nat -> 0 <= n < 10 ^ Z.of_nat fuel ->
  exists k, parseDigits 10 (decimal fuel n acc) a =
            parseDigits 10 acc (Some (10 ^ k * value a + n)) /\ 0 <= k.
Proof.
  induction fuel as [ | fuel IH]; intros n acc a Hfuel Hn; [ lia | ].
  cbn [decimal].
  assert (Hd : 0 <= n mod 10 < 10) by (apply Z.mod_pos_bound; lia).
  assert (Hstep : forall v,
            parseDigits 10 (String (digitChar (n mod 10)) acc) v =
            parseDigits 10 acc (Some (10 * value v + n mod 10))).
  { intros v. cbn [parseDigits]. rewrite (digitValue_digitChar Hd).
    replace (n mod 10 <? 10) with true by (symmetry; apply Z.ltb_lt; lia).
    reflexivity. }
  destruct (n <? 10) eqn:Hlt.
  - apply Z.ltb_lt in Hlt. exists 1. split; [ | lia ].
    rewrite Hstep, Z.mod_small by lia. reflexivity.
  - apply Z.ltb_ge in Hlt.
    rewrite Nat2Z.inj_succ, Z.pow_succ_r in Hn by lia.
    assert (Hpos : (0 < fuel)%nat).
    { destruct fuel; [ simpl in Hn; lia | lia ]. }
    assert (Hq : 0 <= n / 10 < 10 ^ Z.of_nat fuel).
    { split; [ apply Z.div_pos; lia | ].
      apply Z.div_lt_upper_bound; lia. }
    destruct (IH (n / 10) (String (digitChar (n mod 10)) acc) a Hpos Hq)
      as (k & Hk & Hk0).
    exists (k + 1). split; [ | lia ].
    rewrite Hk, Hstep. cbn [value]. f_equal. f_equal.
    rewrite Z.pow_add_r by lia.
    pose proof (Z.div_mod n 10). lia.
Qed.

Lemma fuel_enough (n : Z) :
  0 <= n -> n < 10 ^ Z.of_nat (S (Z.to_nat (Z.log2 n))).
Proof.
  intros Hn.
  rewrite Nat2Z.inj_succ, Z2Nat.id by apply Z.log2_nonneg.
  assert (H2 : n < 2 ^ Z.succ (Z.log2 n)).
  { destruct (Z.eq_dec n 0) as [-> | Hne].
    - reflexivity.
    - apply Z.log2_spec. lia. }
  assert (H10 : 2 ^ Z.succ (Z.log2 n) <= 10 ^ Z.succ (Z.log2 n)).
  { apply Z.pow_le_mono_l. lia. }
  lia.
Qed.

Lemma allDecimal_toString (n : Z) :
  0 <= n -> allDecimal (toString n) = true /\ toString n <> EmptyString.
Proof.
  intros Hn. unfold toString.
  replace (n <? 0) with false by (symmetry; apply Z.ltb_ge; lia).
  split.
  - now apply allDecimal_decimal.
  - apply decimal_S_nonempty.
Qed.

Lemma parseDigits_toString (n : Z) :
  0 <= n -> parseDigits 10 (toString n) None = Some n.
Proof.
  intros Hn. unfold toString.
  replace (n <? 0) with false by (symmetry; apply Z.ltb_ge; lia).
  destruct (@parseDigits_decimal (S (Z.to_nat (Z.log2 n))) n EmptyString None)
    as (k & Hk & _).
  { lia. }
  { split; [ lia | now apply fuel_enough ]. }
  rewrite Hk. simpl. f_equal. lia.
Qed.

(** On a string of decimal digits [trim] changes nothing. *)
Lemma allDecimal_rev_append (s : string) :
  forall acc, allDecimal s = true -> allDecimal acc = true ->
  allDecimal (rev_append s acc) = true.
Proof.
  induction s as [ | c s IH]; intros acc Hs Hacc; simpl in *; auto.
  apply andb_true_iff in Hs. destruct Hs as [Hc Hs].
  apply IH; auto. simpl. now rewrite Hc.
Qed.

Lemma rev_append_twice (s : string) :
  forall a b, rev_append (rev_append s a) b = rev_append a (s ++ b)%string.
Proof.
  induction s as [ | c s IH]; intros a b; simpl; [ reflexivity | ].
  rewrite IH. reflexivity.
Qed.

Lemma append_empty_r (s : string) : (s ++ "")%string = s.
Proof. induction s as [ | c s IH]; simpl; congruence. Qed.

Lemma reverse_reverse (s : string) : reverse (reverse s) = s.
Proof.
  unfold reverse. rewrite rev_append_twice. simpl. apply append_empty_r.
Qed.

Lemma trimStart_allDecimal (s : string) :
  allDecimal s = true -> trimStart s = s.
Proof.
  destruct s as [ | c s]; simpl; [ reflexivity | ]. intros H.
  apply andb_true_iff in H. destruct H as [Hc _].
  destruct (isDecimalDigit_plain _ Hc) as (-> & _). reflexivity.
Qed.

Lemma trim_allDecimal (s : string) : allDecimal s = true -> trim s = s.
Proof.
  intros H. unfold trim, trimEnd.
  rewrite (trimStart_allDecimal _ H).
  rewrite trimStart_allDecimal.
  - apply reverse_reverse.
  - unfold reverse. now apply allDecimal_rev_append.
Qed.

Lemma parseInt_allDecimal (s : string) :
  allDecimal s = true -> parseInt s = parseDigits 10 s None.
Proof.
  intros H. unfold parseInt. rewrite (trimStart_allDecimal _ H).
  destruct s as [ | c1 s]; [ reflexivity | ].
  simpl in H. apply andb_true_iff in H. destruct H as [H1 H].
  destruct (isDecimalDigit_plain _ H1) as (_ & Hm & Hp & _).
  unfold stripSign. rewrite Hm, Hp.
  assert (Hx : stripHexPrefix (String c1 s) = (10, String c1 s)).
  { destruct s as [ | c2 s]; [ reflexivity | ].
    simpl in H. apply andb_true_iff in H. destruct H as [H2 _].
    destruct (isDecimalDigit_plain _ H2) as (_ & _ & _ & Hx & HX).
    unfold stripHexPrefix. rewrite Hx, HX, andb_false_r. reflexivity. }
  rewrite Hx.
  destruct (parseDigits 10 (String c1 s) None) as [v | ]; simpl;
    [ | reflexivity ].
  f_equal. destruct v; reflexivity.
Qed.

(** [parseInt(String(n).trim())] is [n] for a non-negative integer. *)
Lemma parseInt_toString (n : Z) :
  0 <= n -> parseInt (trim (toString n)) = Some n.
Proof.
  intros Hn. destruct (allDecimal_toString Hn) as [Hd _].
  rewrite (trim_allDecimal _ Hd), (parseInt_allDecimal _ Hd).
  now apply parseDigits_toString.
Qed.

(** A string of decimal digits holds no [+]. *)
Lemma split_allDecimal (s : string) :
  allDecimal s = true -> split "+" s = [s].
Proof.
  induction s as [ | c s IH]; simpl; [ reflexivity | ]. intros H.
  apply andb_true_iff in H. destruct H as [Hc Hs].
  destruct (isDecimalDigit_plain _ Hc) as (_ & _ & -> & _).
  rewrite (IH Hs). reflexivity.
Qed.

Lemma split_plus (a b : string) :
  allDecimal a = true -> allDecimal b = true ->
  split "+" (a ++ "+" ++ b)%string = [a; b].
Proof.
  intros Ha Hb. change ("+" ++ b)%string with (String "+"%char b).
  induction a as [ | c a IH]; cbn [append split].
  - rewrite Ascii.eqb_refl. now rewrite (split_allDecimal _ Hb).
  - cbn [allDecimal] in Ha. apply andb_true_iff in Ha.
    destruct Ha as [Hc Ha].
    destruct (isDecimalDigit_plain _ Hc) as (_ & _ & -> & _).
    rewrite (IH Ha). reflexivity.
Qed.

End JSFacts.

(** ** Snapping *)

Section Snap.

Context {M : JS.MathLib}.
Variables (n : Z) (x y : float).

Local Abbreviation dist := (dist n x y).
Local Abbreviation firstNearest := (firstNearest n x y).

Local Open Scope float_scope.






Lemma twenty_lt_infinity : (20 <? infinity) = true.
Proof. reflexivity. Qed.

(** Two indices that are both first-nearest at a snapping distance are
    the same index. *)
Lemma firstNearest_unique (j j' : nat) :
  firstNearest j -> (dist j <=? 20) = true ->
  firstNearest j' -> (dist j' <=? 20) = true -> j = j'.
Proof.
  assert (Hone : forall a b, firstNearest a -> (dist a <=? 20) = true ->
            firstNearest b -> (dist b <=? 20) = true -> (a < b)%nat -> False).
  { intros a b (Ha & Hmina & _) Hla (Hb & _ & Hfirstb) Hlb Hab.
    pose proof (Hfirstb a Hab) as Hnle.
    pose proof (Hmina b Hb) as Hnlt.
    pose proof (@FloatFacts.leb_ltb_trans _ _ infinity Hla twenty_lt_infinity) as Hfa.
    assert (Hnb : (dist b <=? dist b) = true).
    { apply FloatFacts.leb_sf. apply FloatFacts.leb_sf in Hlb.
      apply FloatFacts.sf_le_not_nan_l in Hlb.
      destruct (FloatFacts.sf_total Hlb Hlb) as [H | H]; auto.
      now apply FloatFacts.sf_lt_irrefl in H. }
    pose proof (FloatFacts.leb_false_ltb Hfa Hnb Hnle) as Hc.
    congruence. }
  intros Hj Hlj Hj' Hlj'.
  destruct (Nat.lt_trichotomy j j') as [H | [H | H]]; auto;
    exfalso; eauto.
Qed.

End Snap.





(** ** Field access after an update *)

Lemma state_eta (s : State) :
  mkState (divisions s) (rules s) (drawingMode s) (drawingColor s)
    (showRuleLines s) (showOnlyPattern s) (currentRule s) (isDrawing s)
    (startPoint s) (drawnLines s) (undoStack s) (redoStack s)
    (showInstructions s) (lineThickness s) (freeDrawing s)
    (showRuleExplanation s) (canvasRef s) (ctxRef s) = s.
Proof. destruct s; reflexivity. Qed.

Lemma setRules_same (s : State) : setRules (rules s) s = s.
Proof. apply state_eta. Qed.

(** ** Strokes and history *)

Section Strokes.

Context {M : JS.MathLib}.

(** The history stacks are out of reach of the three stroke handlers. *)
Lemma startDrawing_frame (s : State) (e : MouseEvent) :
  let s' := fst (startDrawing s e) in
  drawnLines s' = drawnLines s /\ undoStack s' = undoStack s /\
  redoStack s' = redoStack s.
Proof.
  unfold startDrawing.
  destruct (drawingMode s), (canvasRef s), (freeDrawing s); simpl; auto.
Qed.

Lemma draw_frame (s : State) (e : MouseEvent) : fst (draw s e) = s.
Proof.
  unfold draw.
  destruct (isDrawing s), (drawingMode s), (canvasRef s), (ctxRef s),
    (freeDrawing s); reflexivity.
Qed.

Lemma stopDrawing_history (s : State) (e : MouseEvent) :
  let s' := fst (stopDrawing s e) in
  undoStack s' = undoStack s /\ redoStack s' = redoStack s.
Proof.
  unfold stopDrawing.
  destruct (isDrawing s), (freeDrawing s), (startPoint s), (canvasRef s);
    simpl; auto.
Qed.

(** The scene [drawCircle] composes is a function of six fields. *)
Lemma drawCircle_ext (s t : State) :
  ctxRef s = ctxRef t -> divisions s = divisions t -> rules s = rules t ->
  showRuleLines s = showRuleLines t -> showOnlyPattern s = showOnlyPattern t ->
  drawnLines s = drawnLines t -> drawCircle s = drawCircle t.
Proof.
  intros H1 H2 H3 H4 H5 H6. unfold drawCircle, drawRuleLines.
  rewrite H1, H2, H3, H4, H5, H6. reflexivity.
Qed.

(** C1. What [stopDrawing] does to a point-to-point stroke in progress:
    it appends exactly one line, from the recorded start point to the
    snapped end point, in the current color and thickness, ends the
    stroke, and leaves the undo stack and the redo stack as they were:
    the manual layer before the commit is not pushed, the redo stack is
    not cleared. *)
Theorem stopDrawing_commits_without_history
  (s : State) (e : MouseEvent) (p : Point) :
  isDrawing s = true -> freeDrawing s = false -> startPoint s = Some p ->
  canvasRef s = true ->
  let s' := fst (stopDrawing s e) in
  drawnLines s' =
    drawnLines s ++
      [DrawnLine.mk p (snapToPoint (divisions s) (pointerX e) (pointerY e))
         (drawingColor s) (lineThickness s)] /\
  isDrawing s' = false /\ startPoint s' = None /\
  undoStack s' = undoStack s /\ redoStack s' = redoStack s.
Proof.
  intros Hd Hf Hp Hc. unfold stopDrawing. rewrite Hd, Hf, Hp, Hc. simpl.
  repeat split.
Qed.

Lemma strokeFromTo_spec (s : State) (a b : MouseEvent) :
  drawingMode s = true -> canvasRef s = true -> freeDrawing s = false ->
  let n := divisions s in
  let line :=
    DrawnLine.mk (snapToPoint n (pointerX a) (pointerY a))
      (snapToPoint n (pointerX b) (pointerY b))
      (drawingColor s) (lineThickness s) in
  strokeFromTo s a b =
    setStartPoint None (setIsDrawing false
      (setDrawnLines (drawnLines s ++ [line])
         (setIsDrawing true
            (setStartPoint (Some (DrawnLine.start line)) s)))).
Proof.
  intros Hm Hc Hf. unfold strokeFromTo, startDrawing.
  rewrite Hm, Hc, Hf. simpl. unfold stopDrawing. simpl.
  rewrite Hf, Hc. reflexivity.
Qed.

(** C2. From a state with empty undo and redo stacks, two point-to-point
    strokes followed by undo, undo, redo leave both lines on the manual
    layer: no stroke reaches the undo stack, so each of the three history
    steps finds its stack empty. *)
Theorem two_strokes_undo_undo_redo
  (s : State) (a1 b1 a2 b2 : MouseEvent) :
  drawingMode s = true -> canvasRef s = true -> freeDrawing s = false ->
  undoStack s = [] -> redoStack s = [] ->
  let n := divisions s in
  let A := DrawnLine.mk (snapToPoint n (pointerX a1) (pointerY a1))
             (snapToPoint n (pointerX b1) (pointerY b1))
             (drawingColor s) (lineThickness s) in
  let B := DrawnLine.mk (snapToPoint n (pointerX a2) (pointerY a2))
             (snapToPoint n (pointerX b2) (pointerY b2))
             (drawingColor s) (lineThickness s) in
  drawnLines
    (handleRedo (handleUndo (handleUndo
       (strokeFromTo (strokeFromTo s a1 b1) a2 b2))))
  = drawnLines s ++ [A; B].
Proof.
  intros Hm Hc Hf Hu Hr. cbv zeta.
  rewrite (strokeFromTo_spec (strokeFromTo s a1 b1) a2 b2);
    rewrite (strokeFromTo_spec s a1 b1 Hm Hc Hf); simpl; auto.
  unfold handleRedo, handleUndo. simpl. rewrite Hu. simpl.
  rewrite Hu. simpl. rewrite Hr. simpl.
  rewrite <- app_assoc. reflexivity.
Qed.

(** C7. [handleResetAll] sets the division count to 12, empties the rule
    set and the manual layer, restores the two visibility flags, pushes
    the manual layer it found onto the undo stack and empties the redo
    stack. *)
Theorem handleResetAll_defaults (s : State) :
  let s' := handleResetAll s in
  divisions s' = 12%Z /\ rules s' = [] /\ drawnLines s' = [] /\
  showRuleLines s' = true /\ showOnlyPattern s' = false /\
  undoStack s' = undoStack s ++ [drawnLines s] /\ redoStack s' = [].
Proof. repeat split. Qed.

Lemma filter_absent (r : string) (l : list string) :
  ~ In r l -> filter (fun rule => negb (String.eqb rule r)) l = l.
Proof.
  induction l as [ | a l IH]; simpl; intros Hn; [ reflexivity | ].
  destruct (String.eqb_spec a r) as [-> | Hne]; simpl.
  - exfalso. apply Hn. now left.
  - rewrite IH; [ reflexivity | ]. intros H. apply Hn. now right.
Qed.

(** C8. Removing a rule that is not in the rule set, undoing with an
    empty undo stack and redoing with an empty redo stack each return
    the state they were given; the three handlers have no other
    outcome, error included. *)
Theorem absent_rule_and_empty_stacks_are_noops (s : State) (r : string) :
  (~ In r (rules s) -> handleRemoveRule s r = s) /\
  (undoStack s = [] -> handleUndo s = s) /\
  (redoStack s = [] -> handleRedo s = s).
Proof.
  repeat split.
  - intros Hn. unfold handleRemoveRule. rewrite (filter_absent _ _ Hn).
    apply setRules_same.
  - intros Hu. unfold handleUndo. rewrite Hu. reflexivity.
  - intros Hr. unfold handleRedo. rewrite Hr. reflexivity.
Qed.

(** C10. In freehand mode none of [startDrawing], [draw], [stopDrawing]
    changes the manual layer, the undo stack or the redo stack; what
    [draw] does is paint on the surface ([lineTo], [stroke]), and the
    scene [drawCircle] composes afterwards, which starts by clearing the
    whole canvas, is the one it composed before the stroke. *)
Theorem freehand_strokes_leave_no_data (s : State) (e : MouseEvent) :
  freeDrawing s = true ->
  (forall s', s' = fst (startDrawing s e) \/ s' = fst (draw s e) \/
              s' = fst (stopDrawing s e) ->
     drawnLines s' = drawnLines s /\ undoStack s' = undoStack s /\
     redoStack s' = redoStack s /\ drawCircle s' = drawCircle s) /\
  (snd (draw s e) = [] \/
   snd (draw s e) =
     [Canvas (lineTo (pointerX e) (pointerY e)); Canvas stroke]) /\
  (ctxRef s = true ->
   exists rest, drawCircle s = clearRect 0 0 canvasSize canvasSize :: rest).
Proof.
  intros Hf. repeat split.
  - destruct H as [-> | [-> | ->]].
    + apply startDrawing_frame.
    + now rewrite draw_frame.
    + unfold stopDrawing. rewrite Hf.
      destruct (isDrawing s), (startPoint s); reflexivity.
  - destruct H as [-> | [-> | ->]].
    + apply startDrawing_frame.
    + now rewrite draw_frame.
    + apply stopDrawing_history.
  - destruct H as [-> | [-> | ->]].
    + apply startDrawing_frame.
    + now rewrite draw_frame.
    + apply stopDrawing_history.
  - destruct H as [-> | [-> | ->]].
    + unfold startDrawing.
      destruct (drawingMode s), (canvasRef s); simpl; try reflexivity.
      rewrite Hf. reflexivity.
    + now rewrite draw_frame.
    + unfold stopDrawing. rewrite Hf.
      destruct (isDrawing s), (startPoint s); reflexivity.
  - unfold draw. rewrite Hf.
    destruct (isDrawing s), (drawingMode s), (canvasRef s), (ctxRef s);
      simpl; auto.
  - intros Hc. unfold drawCircle. rewrite Hc. simpl. eauto.
Qed.

End Strokes.

(** ** Rules *)

Section Rules.

Local Open Scope Z_scope.

Lemma parseRule_ruleString (a b : Z) :
  0 <= a -> 0 <= b ->
  parseRule (ruleString (Some a) (Some b)) = (Some a, Some b).
Proof.
  intros Ha Hb. unfold parseRule, ruleString. simpl JS.numberToString.
  destruct (JSFacts.allDecimal_toString Ha) as [Da _].
  destruct (JSFacts.allDecimal_toString Hb) as [Db _].
  rewrite (JSFacts.split_plus _ _ Da Db). simpl.
  now rewrite !JSFacts.parseInt_toString.
Qed.

Lemma validRule_refused (n : Z) (start end_ : option Z) :
  validRule n start end_ = false <-> refused n start \/ refused n end_.
Proof.
  unfold validRule, refused, JS.isNaN, JS.geb, JS.ltb.
  destruct start as [a | ], end_ as [b | ]; simpl; try tauto.
  rewrite !andb_false_iff, !Z.geb_leb, !Z.leb_gt, !Z.ltb_ge. lia.
Qed.

Lemma handleAddRule_cases (s : State) :
  handleAddRule s =
    if validRule (divisions s) (fst (parseRule (currentRule s)))
         (snd (parseRule (currentRule s)))
    then
      let newRule := ruleString (fst (parseRule (currentRule s)))
                       (snd (parseRule (currentRule s))) in
      if negb (includes (rules s) newRule)
      then (setCurrentRule "" (setRules (rules s ++ [newRule]) s), [])
      else (s, [])
    else (s, [Alert invalidRuleMessage]).
Proof.
  unfold handleAddRule. destruct (parseRule (currentRule s)); reflexivity.
Qed.

(** C3, as the code has it.  [handleAddRule] fails exactly when the
    number [parseInt] reads from the first or from the second piece of
    the text is [NaN], negative, or not below the division count; a
    failure is one [alert] and leaves the whole state, the rule set
    included, as it was. *)
Theorem handleAddRule_fails_iff_refused (s : State) :
  let start := fst (parseRule (currentRule s)) in
  let end_ := snd (parseRule (currentRule s)) in
  (addRuleFails s = true <->
     refused (divisions s) start \/ refused (divisions s) end_) /\
  (addRuleFails s = true ->
     handleAddRule s = (s, [Alert invalidRuleMessage])).
Proof.
  cbv zeta. rewrite <- validRule_refused.
  unfold addRuleFails. rewrite handleAddRule_cases.
  destruct (validRule _ _ _); cbv zeta.
  - destruct (negb _); simpl; split; intros; try split; intros;
      discriminate.
  - simpl. repeat split; reflexivity.
Qed.

Lemma includes_In (l : list string) (r : string) :
  includes l r = true <-> In r l.
Proof.
  unfold includes. rewrite existsb_exists. split.
  - intros (x & Hx & He). apply String.eqb_eq in He. now subst.
  - intros H. exists r. split; [ exact H | apply String.eqb_refl ].
Qed.

Lemma count_occ_absent_app (l : list string) (r : string) :
  ~ In r l -> count_occ string_dec (l ++ [r]) r = 1%nat.
Proof.
  intros H. rewrite count_occ_app.
  apply (count_occ_not_In string_dec) in H. rewrite H. simpl.
  destruct (string_dec r r); congruence.
Qed.

(** C5. A valid submission whose canonical string is already in the rule
    set changes nothing and reports nothing; submitting [0+3] twice to a
    rule set without it (and more than three divisions) leaves it there
    exactly once, the second submission being such a silent one. *)
Theorem duplicate_rule_ignored (s : State) :
  (forall start end_,
     parseRule (currentRule s) = (start, end_) ->
     validRule (divisions s) start end_ = true ->
     In (ruleString start end_) (rules s) ->
     handleAddRule s = (s, [])) /\
  (3 < divisions s -> ~ In "0+3"%string (rules s) ->
   let s1 := fst (handleAddRule (setCurrentRule "0+3" s)) in
   let s2 := setCurrentRule "0+3" s1 in
   rules s1 = rules s ++ ["0+3"%string] /\
   handleAddRule s2 = (s2, []) /\
   count_occ string_dec (rules (fst (handleAddRule s2))) "0+3"%string = 1%nat).
Proof.
  split.
  - intros start end_ Hp Hv Hin. unfold handleAddRule. rewrite Hp, Hv.
    apply includes_In in Hin. rewrite Hin. reflexivity.
  - intros Hn Hnot. cbv zeta.
    assert (Hv : validRule (divisions s) (Some 0) (Some 3) = true).
    { unfold validRule. simpl.
      replace (3 <? divisions s) with true by (symmetry; apply Z.ltb_lt; lia).
      replace (0 <? divisions s) with true by (symmetry; apply Z.ltb_lt; lia).
      reflexivity. }
    assert (Hfirst : handleAddRule (setCurrentRule "0+3" s) =
              (setCurrentRule "" (setRules (rules s ++ ["0+3"%string])
                                  (setCurrentRule "0+3" s)), [])).
    { rewrite handleAddRule_cases.
      change (parseRule (currentRule (setCurrentRule "0+3" s)))
        with (Some 0, Some 3).
      cbn [fst snd]. change (divisions (setCurrentRule "0+3" s))
        with (divisions s). rewrite Hv. cbv zeta.
      change (ruleString (Some 0) (Some 3)) with "0+3"%string.
      change (rules (setCurrentRule "0+3" s)) with (rules s).
      destruct (includes (rules s) "0+3") eqn:Hi.
      - apply includes_In in Hi. contradiction.
      - reflexivity. }
    rewrite Hfirst. cbn [fst].
    set (s2 := setCurrentRule "0+3"
                 (setCurrentRule "" (setRules (rules s ++ ["0+3"%string])
                                      (setCurrentRule "0+3" s)))).
    assert (Hsecond : handleAddRule s2 = (s2, [])).
    { rewrite handleAddRule_cases.
      change (parseRule (currentRule s2)) with (Some 0, Some 3).
      cbn [fst snd]. change (divisions s2) with (divisions s). rewrite Hv.
      cbv zeta. change (ruleString (Some 0) (Some 3)) with "0+3"%string.
      change (rules s2) with (rules s ++ ["0+3"%string]).
      replace (includes (rules s ++ ["0+3"%string]) "0+3") with true.
      - reflexivity.
      - symmetry. apply includes_In, in_or_app. right. now left. }
    repeat split.
    + exact Hsecond.
    + rewrite Hsecond. cbn [fst].
      change (rules s2) with (rules s ++ ["0+3"%string]).
      now apply count_occ_absent_app.
Qed.

End Rules.

(** ** Rule lines *)

Section RuleLines.

Context {M : JS.MathLib}.

Lemma point_eta (p : Point) : Point.mk (Point.x p) (Point.y p) = p.
Proof. destruct p; reflexivity. Qed.

(** A run of [beginPath; moveTo p; lineTo q; stroke] blocks strokes the
    segments [(p, q)], one per block, in order. *)
Lemma stroked_blocks (l : list (Point * Point)) :
  forall st : Pen,
    stroked (fold_left penStep (flat_map block l) st) = stroked st ++ l.
Proof.
  induction l as [ | [p q] l IH]; intros st; simpl.
  - now rewrite app_nil_r.
  - rewrite IH. simpl. rewrite !point_eta, <- app_assoc. reflexivity.
Qed.

Lemma ruleEndAngle_mod (n o i : Z) :
  (0 < n)%Z -> (0 <= o)%Z -> (0 <= i)%Z ->
  ruleEndAngle n (Some o) i = ruleStartAngle n ((i + o) mod n).
Proof.
  intros Hn Ho Hi. unfold ruleEndAngle, ruleStartAngle, remainder.
  replace (n =? 0)%Z with false by (symmetry; apply Z.eqb_neq; lia).
  replace (i + o <? 0)%Z with false by (symmetry; apply Z.ltb_ge; lia).
  simpl. rewrite Z.rem_mod_nonneg by lia. reflexivity.
Qed.

Lemma drawRule_blocks (n : Z) (offset : option Z) (l : list nat) :
  flat_map (ruleSegment n offset) l =
  flat_map block
    (map (fun i => (ruleDivisionPoint n (Z.of_nat i),
                    pointAt (ruleEndAngle n offset (Z.of_nat i)))) l).
Proof.
  induction l as [ | i l IH]; simpl; [ reflexivity | ].
  now rewrite IH.
Qed.

Lemma strokedSegments_drawRule (n start offset : Z) :
  (0 <= start)%Z -> (0 <= offset)%Z ->
  strokedSegments (drawRule n (ruleString (Some start) (Some offset))) =
  map (fun i => (ruleDivisionPoint n (Z.of_nat i),
                 ruleDivisionPoint n ((Z.of_nat i + offset) mod n)))
    (seq 0 (Z.to_nat n)).
Proof.
  intros Hs Ho. unfold strokedSegments, drawRule.
  rewrite (parseRule_ruleString Hs Ho), drawRule_blocks, stroked_blocks.
  cbn [stroked app]. apply map_ext_in. intros i Hi. apply in_seq in Hi.
  rewrite ruleEndAngle_mod by lia. reflexivity.
Qed.

(** Where the two angle computations round to the same binary64, the
    rule layer and the marker layer place the division point on the same
    pixel coordinates. *)
Lemma ruleDivisionPoint_divisionPoint (n i : Z) :
  ruleStartAngle n i = divisionRadian n i ->
  ruleDivisionPoint n i = divisionPoint n i.
Proof.
  intros H. unfold ruleDivisionPoint, pointAt, divisionPoint.
  rewrite H. reflexivity.
Qed.

(** They do for every index at the default count of 12 ... *)
Lemma ruleStartAngle_default (i : nat) :
  (i < 12)%nat -> ruleStartAngle 12 (Z.of_nat i) = divisionRadian 12 (Z.of_nat i).
Proof.
  intros H.
  do 12 (destruct i as [ | i]; [ vm_compute; reflexivity | ]). lia.
Qed.

(** ... and differ in the last place at index 5 of 7. *)
Lemma ruleStartAngle_last_place :
  ruleStartAngle 7 5 <> divisionRadian 7 5.
Proof.
  intros H.
  apply (f_equal (fun a => PrimFloat.Leibniz.eqb a (divisionRadian 7 5))) in H.
  vm_compute in H. discriminate.
Qed.

(** The rule [0+3] on 12 divisions: 12 segments, the first from point 0
    to point 3, the last from point 11 to point 2. *)
Example rule_0_3_on_12 :
  let segments := strokedSegments (drawRule 12 "0+3") in
  List.length segments = 12%nat /\
  hd_error segments = Some (divisionPoint 12 0, divisionPoint 12 3) /\
  nth_error segments 11 = Some (divisionPoint 12 11, divisionPoint 12 2).
Proof.
  cbv zeta.
  change "0+3"%string with (ruleString (Some 0%Z) (Some 3%Z)).
  rewrite (@strokedSegments_drawRule 12 0 3) by lia.
  repeat split; cbn [seq map Z.to_nat Pos.to_nat Pos.iter_op Nat.add
                     hd_error nth_error];
    rewrite ?(ruleDivisionPoint_divisionPoint 12 _
                (ruleStartAngle_default (i := 0) ltac:(lia))),
            ?(ruleDivisionPoint_divisionPoint 12 _
                (ruleStartAngle_default (i := 3) ltac:(lia))),
            ?(ruleDivisionPoint_divisionPoint 12 _
                (ruleStartAngle_default (i := 11) ltac:(lia))),
            ?(ruleDivisionPoint_divisionPoint 12 _
                (ruleStartAngle_default (i := 2) ltac:(lia)));
    reflexivity.
Qed.

End RuleLines.

(** ** The theorems on concrete runs

    The runs use [ReferenceMath.lib]; pointer positions are canvas
    coordinates (the canvas rectangle at the origin). *)

(** Snapping on 12 divisions: a point 7 pixels from division point 0
    snaps to it, the center of the circle stays where it is. *)
Example snapToPoint_runs :
  snapToPoint (M := ReferenceMath.lib) 12 715 405 = Point.mk 720 400 /\
  snapToPoint (M := ReferenceMath.lib) 12 400 400 = Point.mk 400 400.
Proof. split; vm_compute; reflexivity. Qed.

(** A stroke released near division point 3 after Reset Drawing and
    Undo: one line is added, the undo stack stays empty and the redo
    stack keeps its snapshot. *)
Lemma stopDrawing_commits_without_history_run :
  isDrawing strokeInProgress = true /\
  freeDrawing strokeInProgress = false /\
  startPoint strokeInProgress = Some (Point.mk 720 400) /\
  canvasRef strokeInProgress = true /\
  drawnLines (fst (stopDrawing (M := ReferenceMath.lib) strokeInProgress
                     (pointerAt 402 717)))
    = [DrawnLine.mk (Point.mk 720 400) (Point.mk 400 720) "#000000" 2] /\
  undoStack (fst (stopDrawing (M := ReferenceMath.lib) strokeInProgress
                    (pointerAt 402 717))) = [] /\
  redoStack (fst (stopDrawing (M := ReferenceMath.lib) strokeInProgress
                    (pointerAt 402 717))) = [[]].
Proof.
  assert (H1 : isDrawing strokeInProgress = true)
    by (vm_compute; reflexivity).
  assert (H2 : freeDrawing strokeInProgress = false)
    by (vm_compute; reflexivity).
  assert (H3 : startPoint strokeInProgress = Some (Point.mk 720 400))
    by (vm_compute; reflexivity).
  assert (H4 : canvasRef strokeInProgress = true)
    by (vm_compute; reflexivity).
  destruct (stopDrawing_commits_without_history (M := ReferenceMath.lib)
              strokeInProgress (pointerAt 402 717) H1 H2 H3 H4)
    as (Hl & _ & _ & Hu & Hr).
  exact (conj H1 (conj H2 (conj H3 (conj H4 (conj Hl (conj Hu Hr)))))).
Defined.

(** Two strokes on the mounted component, then undo, undo, redo: both
    lines are still there. *)
Lemma two_strokes_undo_undo_redo_run :
  drawingMode (toggleDrawingMode mounted) = true /\
  canvasRef (toggleDrawingMode mounted) = true /\
  freeDrawing (toggleDrawingMode mounted) = false /\
  undoStack (toggleDrawingMode mounted) = [] /\
  redoStack (toggleDrawingMode mounted) = [] /\
  drawnLines
    (handleRedo (handleUndo (handleUndo
       (strokeFromTo (M := ReferenceMath.lib)
          (strokeFromTo (M := ReferenceMath.lib) (toggleDrawingMode mounted)
             (pointerAt 715 405) (pointerAt 402 717))
          (pointerAt 400 723) (pointerAt 83 398)))))
  = [DrawnLine.mk (Point.mk 720 400) (Point.mk 400 720) "#000000" 2;
     DrawnLine.mk (Point.mk 400 720) (Point.mk 80 400) "#000000" 2].
Proof.
  pose proof (two_strokes_undo_undo_redo (M := ReferenceMath.lib)
                (toggleDrawingMode mounted) (pointerAt 715 405)
                (pointerAt 402 717) (pointerAt 400 723) (pointerAt 83 398)
                eq_refl eq_refl eq_refl eq_refl eq_refl) as H.
  exact (conj eq_refl (conj eq_refl (conj eq_refl (conj eq_refl
           (conj eq_refl H))))).
Defined.

(** The text [3abc+2] on 12 divisions: its first token is not a
    non-negative integer, so the specification rejects it, yet
    [handleAddRule] reports nothing and adds the rule [3+2]. *)
Lemma lenient_token_accepted :
  isDecimalToken "3abc" = false /\
  specRejects (divisions mounted) "3abc+2" = true /\
  addRuleFails (setCurrentRule "3abc+2" mounted) = false /\
  rules (setCurrentRule "3abc+2" mounted) = [] /\
  rules (fst (handleAddRule (setCurrentRule "3abc+2" mounted)))
    = ["3+2"%string].
Proof. repeat apply conj; reflexivity. Qed.

(** The texts of the specification's examples: [0+3] is accepted on 12
    divisions, [12+1] fails and leaves the state as it was. *)
Lemma handleAddRule_fails_iff_refused_run :
  addRuleFails (setCurrentRule "12+1" mounted) = true /\
  handleAddRule (setCurrentRule "12+1" mounted)
    = (setCurrentRule "12+1" mounted, [Alert invalidRuleMessage]) /\
  addRuleFails (setCurrentRule "0+3" mounted) = false.
Proof.
  destruct (handleAddRule_fails_iff_refused (setCurrentRule "12+1" mounted))
    as [Hiff Hsame].
  assert (Hf : addRuleFails (setCurrentRule "12+1" mounted) = true).
  { apply Hiff. left. change (refused 12 (Some 12%Z)). cbn [refused]. lia. }
  refine (conj Hf (conj (Hsame Hf) _)).
  destruct (handleAddRule_fails_iff_refused (setCurrentRule "0+3" mounted))
    as [Hiff' _].
  destruct (addRuleFails (setCurrentRule "0+3" mounted)) eqn:E;
    [ | reflexivity ].
  exfalso. destruct (proj1 Hiff' eq_refl) as [H | H].
  - change (refused 12 (Some 0%Z)) in H. cbn [refused] in H. lia.
  - change (refused 12 (Some 3%Z)) in H. cbn [refused] in H. lia.
Defined.

Lemma duplicate_rule_ignored_run :
  (3 < divisions mounted)%Z /\ ~ In "0+3"%string (rules mounted) /\
  rules (fst (handleAddRule (setCurrentRule "0+3" mounted)))
    = ["0+3"%string] /\
  handleAddRule
    (setCurrentRule "0+3" (fst (handleAddRule (setCurrentRule "0+3" mounted))))
  = (setCurrentRule "0+3" (fst (handleAddRule (setCurrentRule "0+3" mounted))),
     []) /\
  count_occ string_dec
    (rules (fst (handleAddRule
       (setCurrentRule "0+3"
          (fst (handleAddRule (setCurrentRule "0+3" mounted)))))))
    "0+3"%string = 1%nat.
Proof.
  assert (H3 : (3 < divisions mounted)%Z) by reflexivity.
  assert (Hn : ~ In "0+3"%string (rules mounted)) by (simpl; tauto).
  destruct (duplicate_rule_ignored mounted) as [_ Htwice].
  destruct (Htwice H3 Hn) as (Ha & Hb & Hc).
  exact (conj H3 (conj Hn (conj Ha (conj Hb Hc)))).
Defined.

Lemma absent_rule_and_empty_stacks_are_noops_run :
  ~ In "1+2"%string (rules (setRules ["0+3"%string] mounted)) /\
  undoStack (setRules ["0+3"%string] mounted) = [] /\
  redoStack (setRules ["0+3"%string] mounted) = [] /\
  handleRemoveRule (setRules ["0+3"%string] mounted) "1+2"
    = setRules ["0+3"%string] mounted /\
  handleUndo (setRules ["0+3"%string] mounted)
    = setRules ["0+3"%string] mounted /\
  handleRedo (setRules ["0+3"%string] mounted)
    = setRules ["0+3"%string] mounted.
Proof.
  assert (Hn : ~ In "1+2"%string (rules (setRules ["0+3"%string] mounted))).
  { simpl. intros [H | H]; [ discriminate | exact H ]. }
  destruct (absent_rule_and_empty_stacks_are_noops
              (setRules ["0+3"%string] mounted) "1+2") as (Hr & Hu & Hd).
  exact (conj Hn (conj eq_refl (conj eq_refl
           (conj (Hr Hn) (conj (Hu eq_refl) (Hd eq_refl)))))).
Defined.

Lemma freehand_strokes_leave_no_data_run :
  freeDrawing freehandInProgress = true /\
  drawnLines (fst (stopDrawing (M := ReferenceMath.lib) freehandInProgress
                     (pointerAt 500 500))) = [] /\
  undoStack (fst (stopDrawing (M := ReferenceMath.lib) freehandInProgress
                    (pointerAt 500 500))) = [] /\
  redoStack (fst (stopDrawing (M := ReferenceMath.lib) freehandInProgress
                    (pointerAt 500 500))) = [] /\
  snd (draw (M := ReferenceMath.lib) freehandInProgress (pointerAt 500 500))
    = [Canvas (lineTo 500 500); Canvas stroke].
Proof.
  assert (Hf : freeDrawing freehandInProgress = true)
    by (vm_compute; reflexivity).
  destruct (freehand_strokes_leave_no_data (M := ReferenceMath.lib)
              freehandInProgress (pointerAt 500 500) Hf) as (Hframe & _ & _).
  destruct (Hframe _ (or_intror (or_intror eq_refl))) as (Hl & Hu & Hr & _).
  refine (conj Hf (conj _ (conj _ (conj _ _)))).
  - rewrite Hl. vm_compute. reflexivity.
  - rewrite Hu. vm_compute. reflexivity.
  - rewrite Hr. vm_compute. reflexivity.
  - vm_compute. reflexivity.
Defined.

(** * Further properties of the handlers

    ** Undo, redo and the resets *)

Section History.

Lemma positive_length (A : Type) (l : list A) :
  l <> [] -> (0 <? List.length l)%nat = true.
Proof. destruct l; [ congruence | reflexivity ]. Qed.

Lemma restore_last (l : list (list DrawnLine)) :
  l <> [] -> removelast l ++ [top l] = l.
Proof. intros H. symmetry. now apply app_removelast_last. Qed.

Lemma top_pushed (l : list (list DrawnLine)) (x : list DrawnLine) :
  top (l ++ [x]) = x.
Proof. apply last_last. Qed.

Lemma handleUndo_empty (s : State) : undoStack s = [] -> handleUndo s = s.
Proof. intros H. unfold handleUndo. now rewrite H. Qed.

Lemma handleRedo_empty (s : State) : redoStack s = [] -> handleRedo s = s.
Proof. intros H. unfold handleRedo. now rewrite H. Qed.

Lemma handleUndo_pop (s : State) :
  undoStack s <> [] ->
  handleUndo s =
    setUndoStack (removelast (undoStack s))
      (setDrawnLines (top (undoStack s))
         (setRedoStack (redoStack s ++ [drawnLines s]) s)).
Proof. intros H. unfold handleUndo. now rewrite (positive_length H). Qed.

Lemma handleRedo_pop (s : State) :
  redoStack s <> [] ->
  handleRedo s =
    setRedoStack (removelast (redoStack s))
      (setDrawnLines (top (redoStack s))
         (setUndoStack (undoStack s ++ [drawnLines s]) s)).
Proof. intros H. unfold handleRedo. now rewrite (positive_length H). Qed.

(** Whether a snapshot stack is empty can be decided. *)
Lemma stack_empty_dec (l : list (list DrawnLine)) : {l = []} + {l <> []}.
Proof. destruct l; [ now left | right; discriminate ]. Qed.

(** X1. Redo undoes an undo and undo undoes a redo: whenever the stack
    the first step pops is not empty, the two steps together give back
    the whole state. *)
Theorem undo_redo_round_trip (s : State) :
  (undoStack s <> [] -> handleRedo (handleUndo s) = s) /\
  (redoStack s <> [] -> handleUndo (handleRedo s) = s).
Proof.
  split; intros H.
  - unfold handleUndo. rewrite (positive_length H).
    unfold handleRedo. cbn [redoStack setUndoStack setDrawnLines setRedoStack
                           undoStack drawnLines].
    rewrite (positive_length (l := redoStack s ++ [drawnLines s]))
      by (destruct (redoStack s); discriminate).
    rewrite top_pushed, removelast_last, (restore_last H).
    destruct s; reflexivity.
  - unfold handleRedo. rewrite (positive_length H).
    unfold handleUndo. cbn [redoStack setUndoStack setDrawnLines setRedoStack
                           undoStack drawnLines].
    rewrite (positive_length (l := undoStack s ++ [drawnLines s]))
      by (destruct (undoStack s); discriminate).
    rewrite top_pushed, removelast_last, (restore_last H).
    destruct s; reflexivity.
Qed.

(** X2. Undo and redo only move along the timeline: the sequence of
    snapshots (undo stack, manual layer, redo stack reversed) is the
    same after either, and no field besides these three changes - the
    rules and the division count are out of reach of undo. *)
Theorem undo_redo_keep_timeline (s : State) :
  timeline (handleUndo s) = timeline s /\
  timeline (handleRedo s) = timeline s /\
  setUndoStack (undoStack s)
    (setDrawnLines (drawnLines s)
       (setRedoStack (redoStack s) (handleUndo s))) = s /\
  setUndoStack (undoStack s)
    (setDrawnLines (drawnLines s)
       (setRedoStack (redoStack s) (handleRedo s))) = s.
Proof.
  repeat apply conj.
  - destruct (stack_empty_dec (undoStack s)) as [Hu | Hu].
    + now rewrite (handleUndo_empty s Hu).
    + rewrite (handleUndo_pop s Hu). unfold timeline.
      cbn [undoStack drawnLines redoStack setUndoStack setDrawnLines
           setRedoStack].
      rewrite rev_app_distr. cbn [rev app].
      rewrite <- (restore_last Hu) at 3.
      rewrite <- !app_assoc. reflexivity.
  - destruct (stack_empty_dec (redoStack s)) as [Hr | Hr].
    + now rewrite (handleRedo_empty s Hr).
    + rewrite (handleRedo_pop s Hr). unfold timeline.
      cbn [undoStack drawnLines redoStack setUndoStack setDrawnLines
           setRedoStack].
      rewrite <- (restore_last Hr) at 3.
      rewrite rev_app_distr. cbn [rev app].
      rewrite <- !app_assoc. reflexivity.
  - unfold handleUndo.
    destruct (0 <? List.length (undoStack s))%nat; destruct s; reflexivity.
  - unfold handleRedo.
    destruct (0 <? List.length (redoStack s))%nat; destruct s; reflexivity.
Qed.

(** X3. Both resets can be undone as far as the manual layer goes: one
    undo after Reset Drawing gives back the layer and the undo stack,
    and keeps the emptied layer for a redo; one undo after Reset All
    gives back the layer too, but neither the rules nor the division
    count. *)
Theorem resets_are_undoable (s : State) :
  let d := handleUndo (handleResetDrawing s) in
  let a := handleUndo (handleResetAll s) in
  drawnLines d = drawnLines s /\ undoStack d = undoStack s /\
  redoStack d = [[]] /\
  handleRedo d = handleResetDrawing s /\
  drawnLines a = drawnLines s /\ undoStack a = undoStack s /\
  rules a = [] /\ divisions a = 12%Z.
Proof.
  cbv zeta.
  assert (Hu : forall t, undoStack t = undoStack s ++ [drawnLines s] ->
            drawnLines (handleUndo t) = drawnLines s /\
            undoStack (handleUndo t) = undoStack s /\
            redoStack (handleUndo t) = redoStack t ++ [drawnLines t] /\
            rules (handleUndo t) = rules t /\
            divisions (handleUndo t) = divisions t).
  { intros t Ht. unfold handleUndo.
    rewrite (positive_length (l := undoStack t))
      by (rewrite Ht; destruct (undoStack s); discriminate).
    cbn [redoStack setUndoStack setDrawnLines setRedoStack undoStack
         drawnLines rules divisions].
    rewrite Ht, top_pushed, removelast_last. repeat split. }
  destruct (Hu (handleResetDrawing s) eq_refl) as (H1 & H2 & H3 & _).
  destruct (Hu (handleResetAll s) eq_refl) as (H4 & H5 & _ & H6 & H7).
  repeat apply conj; try assumption.
  assert (Hne : undoStack (handleResetDrawing s) <> [])
    by (cbn; destruct (undoStack s); discriminate).
  rewrite (handleUndo_pop _ Hne), handleRedo_pop by discriminate.
  cbn [redoStack setUndoStack setDrawnLines setRedoStack undoStack
       drawnLines handleResetDrawing resetDrawing app].
  rewrite top_pushed, removelast_last. destruct s; reflexivity.
Qed.

End History.

(** ** The rule set *)

Section RuleSet.

Local Open Scope Z_scope.

Lemma filter_other_count (r q : string) (l : list string) :
  q <> r ->
  count_occ string_dec (filter (fun rule => negb (String.eqb rule r)) l) q
  = count_occ string_dec l q.
Proof.
  intros Hq. induction l as [ | a l IH]; [ reflexivity | ]. cbn [filter].
  destruct (String.eqb_spec a r) as [-> | Hne]; cbn [negb count_occ].
  - destruct (string_dec r q); [ congruence | exact IH ].
  - destruct (string_dec a q); now rewrite IH.
Qed.

(** X4. [handleRemoveRule] removes every occurrence of the rule and
    nothing else: the rule is gone, every other rule occurs as often as
    before (and in the same order: the result is a filter of the list),
    a duplicate-free set stays duplicate-free, removing again changes
    nothing, and no other field of the state is touched. *)
Theorem handleRemoveRule_removes_exactly (s : State) (r : string) :
  let s' := handleRemoveRule s r in
  ~ In r (rules s') /\
  (forall q, q <> r ->
     count_occ string_dec (rules s') q = count_occ string_dec (rules s) q) /\
  (NoDup (rules s) -> NoDup (rules s')) /\
  handleRemoveRule s' r = s' /\
  setRules (rules s) s' = s.
Proof.
  cbv zeta. unfold handleRemoveRule. cbn [rules setRules].
  assert (Hgone : ~ In r (filter (fun rule => negb (String.eqb rule r))
                            (rules s))).
  { intros Hin. apply filter_In in Hin. destruct Hin as [_ Hb].
    rewrite String.eqb_refl in Hb. discriminate. }
  repeat apply conj.
  - exact Hgone.
  - intros q Hq. now apply filter_other_count.
  - apply NoDup_filter.
  - rewrite (filter_absent _ _ Hgone). destruct s; reflexivity.
  - destruct s; reflexivity.
Qed.

Lemma validRule_true (n : Z) (start end_ : option Z) :
  validRule n start end_ = true ->
  exists a b, start = Some a /\ end_ = Some b /\ 0 <= a < n /\ 0 <= b < n.
Proof.
  unfold validRule, JS.isNaN, JS.geb, JS.ltb.
  destruct start as [a | ], end_ as [b | ]; simpl; try discriminate.
  rewrite !andb_true_iff, !Z.geb_leb, !Z.leb_le, !Z.ltb_lt.
  intros H. exists a, b. repeat split; lia.
Qed.

Lemma parseRule_empty : parseRule "" = (None, None).
Proof. reflexivity. Qed.

(** X5. What an accepted new rule leaves behind.  When [handleAddRule]
    does not fail and the rule is not yet in the set, the text held two
    numbers [a], [b] from 0 up to, not including, the division count;
    the rule set grows at its end by the canonical text of [(a, b)],
    which [drawRuleLines] parses back to [(a, b)]; the text field is
    emptied, nothing else changes and nothing is reported - and pressing
    Add Rule once more, on the emptied field, fails. *)
Theorem handleAddRule_accepts (s : State) :
  addRuleFails s = false ->
  ~ In (ruleString (fst (parseRule (currentRule s)))
          (snd (parseRule (currentRule s)))) (rules s) ->
  exists a b,
    parseRule (currentRule s) = (Some a, Some b) /\
    0 <= a < divisions s /\ 0 <= b < divisions s /\
    handleAddRule s =
      (setCurrentRule "" (setRules (rules s ++ [ruleString (Some a) (Some b)]) s),
       []) /\
    parseRule (ruleString (Some a) (Some b)) = (Some a, Some b) /\
    addRuleFails (fst (handleAddRule s)) = true.
Proof.
  intros Hok Hnew. unfold addRuleFails in Hok.
  rewrite handleAddRule_cases in Hok |- *.
  destruct (validRule (divisions s) (fst (parseRule (currentRule s)))
              (snd (parseRule (currentRule s)))) eqn:Hv;
    [ | discriminate ].
  destruct (validRule_true _ _ _ Hv) as (a & b & Ha & Hb & Hra & Hrb).
  exists a, b. cbv zeta.
  destruct (includes (rules s) _) eqn:Hi.
  { apply includes_In in Hi. contradiction. }
  cbn [negb]. rewrite Ha, Hb. repeat apply conj; try lia.
  - destruct (parseRule (currentRule s)); cbn [fst snd] in Ha, Hb.
    now subst.
  - reflexivity.
  - apply parseRule_ruleString; lia.
  - cbn [fst]. unfold addRuleFails. rewrite handleAddRule_cases.
    cbn [currentRule setCurrentRule]. rewrite parseRule_empty.
    reflexivity.
Qed.

(** X6. Two canonical rule texts are the same text only when they stand
    for the same start and the same offset: checking the rule set for
    the text, as [handleAddRule] does, is checking it for the pair. *)
Theorem ruleString_injective (a b a' b' : Z) :
  0 <= a -> 0 <= b -> 0 <= a' -> 0 <= b' ->
  ruleString (Some a) (Some b) = ruleString (Some a') (Some b') ->
  a = a' /\ b = b'.
Proof.
  intros Ha Hb Ha' Hb' H.
  pose proof (parseRule_ruleString Ha Hb) as P.
  rewrite H, (parseRule_ruleString Ha' Hb') in P.
  split; congruence.
Qed.

End RuleSet.

(** ** Sessions *)

Section Sessions.

Context {M : JS.MathLib}.

Local Open Scope Z_scope.

Lemma wellFormed_same (s s' : State) :
  divisions s' = divisions s -> lineThickness s' = lineThickness s ->
  rules s' = rules s ->
  (startPoint s' <> None -> isDrawing s' = true) ->
  wellFormed s -> wellFormed s'.
Proof.
  intros Hd Ht Hr Hp (W1 & W2 & W3 & W4 & _). unfold wellFormed.
  rewrite Hd, Ht, Hr. auto.
Qed.

Lemma startDrawing_wellFormed (s : State) (e : MouseEvent) :
  wellFormed s -> wellFormed (fst (startDrawing s e)).
Proof.
  intros W. pose proof W as (_ & _ & _ & _ & Hp).
  apply (wellFormed_same (s := s)); auto; unfold startDrawing;
    destruct (drawingMode s), (canvasRef s), (freeDrawing s);
    cbn; auto; exact (proj2 (proj2 (proj2 (proj2 W)))).
Qed.

Lemma stopDrawing_wellFormed (s : State) (e : MouseEvent) :
  wellFormed s -> wellFormed (fst (stopDrawing s e)).
Proof.
  intros W. pose proof W as (_ & _ & _ & _ & Hp).
  apply (wellFormed_same (s := s)); auto; unfold stopDrawing;
    destruct (isDrawing s), (freeDrawing s), (startPoint s), (canvasRef s);
    cbn; auto; try congruence;
    exact (proj2 (proj2 (proj2 (proj2 W)))).
Qed.

Lemma handleAddRule_wellFormed (s : State) :
  wellFormed s -> wellFormed (fst (handleAddRule s)).
Proof.
  intros W. pose proof W as (W1 & W2 & W3 & W4 & W5).
  rewrite handleAddRule_cases.
  destruct (validRule _ _ _) eqn:Hv; [ | exact W ].
  cbv zeta. destruct (includes _ _) eqn:Hi; [ exact W | ].
  destruct (validRule_true _ _ _ Hv) as (a & b & Ha & Hb & Hra & Hrb).
  cbn [negb fst]. unfold wellFormed.
  cbn [divisions lineThickness rules startPoint isDrawing setCurrentRule
       setRules].
  repeat apply conj; try lia; try assumption.
  - apply NoDup_app; [ exact W3 | repeat constructor; simpl; tauto | ].
    intros r Hr [<- | []].
    assert (Hin : includes (rules s)
              (ruleString (fst (parseRule (currentRule s)))
                 (snd (parseRule (currentRule s)))) = true)
      by now apply includes_In.
    congruence.
  - apply Forall_app. split; [ exact W4 | ].
    constructor; [ | constructor ].
    exists a, b. rewrite Ha, Hb. repeat split; lia.
Qed.

Lemma handleRemoveRule_wellFormed (s : State) (r : string) :
  wellFormed s -> wellFormed (handleRemoveRule s r).
Proof.
  intros (W1 & W2 & W3 & W4 & W5). unfold wellFormed, handleRemoveRule.
  cbn [divisions lineThickness rules startPoint isDrawing setRules].
  repeat apply conj; try lia; try assumption.
  - now apply NoDup_filter.
  - apply Forall_forall. intros q Hq. apply filter_In in Hq.
    destruct Hq as [Hq _]. revert q Hq. now apply Forall_forall.
Qed.

Lemma history_wellFormed (s : State) :
  wellFormed s ->
  wellFormed (handleUndo s) /\ wellFormed (handleRedo s) /\
  wellFormed (handleResetDrawing s).
Proof.
  intros W. pose proof W as (_ & _ & _ & _ & Hp).
  repeat apply conj; apply (wellFormed_same (s := s)); auto;
    unfold handleUndo, handleRedo, handleResetDrawing, resetDrawing;
    try destruct (0 <? List.length (undoStack s))%nat;
    try destruct (0 <? List.length (redoStack s))%nat; auto.
Qed.

Lemma handleResetAll_wellFormed (s : State) :
  wellFormed s -> wellFormed (handleResetAll s).
Proof.
  intros (W1 & W2 & W3 & W4 & W5). unfold wellFormed.
  cbn. repeat apply conj; try lia; try assumption; constructor.
Qed.

Lemma effect_wellFormed (s : State) :
  wellFormed s -> wellFormed (fst (effect s)).
Proof.
  intros W. pose proof W as (_ & _ & _ & _ & Hp). unfold effect.
  destruct (canvasRef s); [ | exact W ].
  apply (wellFormed_same (s := s)); auto.
Qed.

Lemma slider_wellFormed (s : State) (v : Z) :
  wellFormed s ->
  (3 <= v <= 36 -> wellFormed (setDivisions v s)) /\
  (1 <= v <= 10 -> wellFormed (setLineThickness v s)).
Proof.
  intros (W1 & W2 & W3 & W4 & W5). unfold wellFormed.
  cbn [divisions lineThickness rules startPoint isDrawing setDivisions
       setLineThickness].
  split; intros Hv; repeat apply conj; try lia; assumption.
Qed.

Lemma slider_guard (b : bool) (lo hi v : Z) :
  b && (lo <=? v) && (v <=? hi) = true -> lo <= v <= hi.
Proof.
  rewrite !andb_true_iff, !Z.leb_le. lia.
Qed.

Lemma perform_wellFormed (s s' : State) (a : Action) (effs : list Effect) :
  wellFormed s -> perform s a = Some (s', effs) -> wellFormed s'.
Proof.
  intros W. pose proof (proj2 (proj2 (proj2 (proj2 W)))) as W5.
  destruct a; cbn [perform]; unfold when;
    repeat match goal with
    | |- context [if ?b then _ else _] => destruct b eqn:?
    | |- context [match nth_error ?l ?k with _ => _ end] =>
        destruct (nth_error l k) eqn:?
    end;
    intros H; try discriminate H;
    apply (f_equal (option_map fst)) in H; cbn [option_map fst] in H;
    injection H as <-;
    first
      [ exact W
      | now apply startDrawing_wellFormed
      | now apply stopDrawing_wellFormed
      | now apply handleAddRule_wellFormed
      | now apply handleRemoveRule_wellFormed
      | now apply handleResetAll_wellFormed
      | exact (proj1 (history_wellFormed W))
      | exact (proj1 (proj2 (history_wellFormed W)))
      | exact (proj2 (proj2 (history_wellFormed W)))
      | apply (proj1 (slider_wellFormed v W)); eapply slider_guard; eassumption
      | apply (proj2 (slider_wellFormed v W)); eapply slider_guard; eassumption
      | apply (effect_wellFormed (s := setRefs true (ctxRef s) s));
        apply (wellFormed_same (s := s)); auto
      | apply (wellFormed_same (s := s)); auto; now rewrite draw_frame
      | apply (wellFormed_same (s := s)); auto ].
Qed.

Lemma run_wellFormed (acts : list Action) :
  forall s s' effs,
    wellFormed s -> run s acts = Some (s', effs) -> wellFormed s'.
Proof.
  induction acts as [ | a acts IH]; intros s s' effs W; cbn [run].
  - intros H. inversion H. now subst.
  - destruct (perform s a) as [[s1 effs1] | ] eqn:Hp; [ | discriminate ].
    destruct (run s1 acts) as [[s2 effs2] | ] eqn:Hr; [ | discriminate ].
    intros H. inversion H; subst.
    apply (IH s1 s' effs2); [ | exact Hr ].
    eapply perform_wellFormed; eassumption.
Qed.

Lemma initialState_wellFormed : wellFormed initialState.
Proof.
  unfold wellFormed. cbn. repeat apply conj; try lia; try constructor.
  congruence.
Qed.

(** X7. Whatever the user does, in whatever order: the division count
    stays on its slider (3..36) and the line thickness on its (1..10),
    the rule set has no duplicates, every rule in it is the canonical
    text of two numbers from 0 up to 36 - so [drawRuleLines] reads two
    numbers from it, never [NaN] - and a recorded start point means a
    stroke in progress. *)
Theorem reachable_wellFormed (s : State) :
  reachable s ->
  wellFormed s /\
  forall r, In r (rules s) ->
    exists a b, parseRule r = (Some a, Some b) /\ 0 <= a < 36 /\ 0 <= b < 36.
Proof.
  intros (acts & effs & Hrun).
  pose proof (run_wellFormed acts initialState_wellFormed Hrun) as W.
  split; [ exact W | ].
  intros r Hr. destruct W as (_ & _ & _ & W4 & _).
  rewrite Forall_forall in W4.
  destruct (W4 r Hr) as (a & b & Ha & Hb & ->).
  exists a, b. split; [ apply parseRule_ruleString; lia | lia ].
Qed.

End Sessions.

(** ** What reaches the canvas *)

Section Painting.

Context {M : JS.MathLib}.

Lemma canvasCalls_Canvas (l : list CanvasCmd) : canvasCalls (map Canvas l) = l.
Proof.
  unfold canvasCalls. induction l as [ | c l IH]; [ reflexivity | ].
  cbn [map flat_map app]. now rewrite IH.
Qed.

Lemma canvasCalls_app (a b : list Effect) :
  canvasCalls (a ++ b) = canvasCalls a ++ canvasCalls b.
Proof. apply flat_map_app. Qed.

(** Calls without [lineTo], on an empty current path, stroke nothing and
    leave the path empty. *)
Lemma quiet_calls (cmds : list CanvasCmd) :
  forall st : Pen,
    forallb (fun c => negb (isLineTo c)) cmds = true -> path st = [] ->
    path (fold_left penStep cmds st) = [] /\
    stroked (fold_left penStep cmds st) = stroked st.
Proof.
  induction cmds as [ | c cmds IH]; intros st Hq Hp; [ now split | ].
  cbn [forallb] in Hq. apply andb_true_iff in Hq. destruct Hq as [Hc Hq].
  cbn [fold_left].
  assert (Hstep : path (penStep st c) = [] /\
                  stroked (penStep st c) = stroked st).
  { destruct c; cbn [penStep path stroked]; try (now split);
      try discriminate Hc.
    rewrite Hp, app_nil_r. now split. }
  destruct Hstep as [Hp' Hs'].
  destruct (IH (penStep st c) Hq Hp') as [Hp'' Hs''].
  split; congruence.
Qed.

Lemma stroked_lines (ls : list DrawnLine) :
  forall st : Pen,
    stroked (fold_left penStep (flat_map drawLine ls) st)
    = stroked st ++ map lineSegment ls.
Proof.
  induction ls as [ | l ls IH]; intros st; cbn [flat_map map].
  - now rewrite app_nil_r.
  - unfold drawLine at 1. cbn [app fold_left penStep path pen stroked].
    rewrite IH. cbn [stroked app]. rewrite !point_eta, <- app_assoc.
    reflexivity.
Qed.

Lemma drawRule_ruleSegments (n : Z) (rule : string) :
  drawRule n rule = flat_map block (ruleSegments n rule).
Proof.
  unfold drawRule, ruleSegments.
  destruct (parseRule rule) as [start offset]. cbn [snd].
  apply drawRule_blocks.
Qed.

Lemma flat_map_blocks (n : Z) (rs : list string) :
  flat_map (drawRule n) rs = flat_map block (flat_map (ruleSegments n) rs).
Proof.
  induction rs as [ | r rs IH]; cbn [flat_map]; [ reflexivity | ].
  now rewrite flat_map_app, IH, drawRule_ruleSegments.
Qed.

Lemma markers_quiet (n : Z) (l : list nat) :
  forallb (fun c => negb (isLineTo c)) (flat_map (drawDot n) l) = true.
Proof.
  induction l as [ | i l IH]; [ reflexivity | ].
  cbn [flat_map]. rewrite forallb_app, IH. reflexivity.
Qed.

Lemma scene_segments (s : State) :
  ctxRef s = true ->
  strokedSegments (drawCircle s) =
    (if showRuleLines s
     then flat_map (ruleSegments (divisions s)) (rules s) else [])
    ++ map lineSegment (drawnLines s).
Proof.
  intros Hc. unfold strokedSegments, drawCircle. rewrite Hc. cbn [negb].
  rewrite !fold_left_app.
  set (st0 := fold_left penStep _ (mkPen [] None [])).
  set (st1 := fold_left penStep _ st0).
  assert (H0 : path st0 = [] /\ stroked st0 = []) by (now split).
  assert (H1 : path st1 = [] /\ stroked st1 = []).
  { destruct H0 as [P0 S0]. rewrite <- S0. apply quiet_calls; [ | exact P0 ].
    destruct (showOnlyPattern s); cbn [negb]; [ reflexivity | ].
    rewrite forallb_app, markers_quiet. reflexivity. }
  destruct H1 as [P1 S1].
  rewrite stroked_lines. f_equal.
  destruct (showRuleLines s); [ | exact S1 ].
  unfold drawRuleLines. cbn [fold_left penStep].
  rewrite flat_map_blocks, stroked_blocks. cbn [stroked].
  now rewrite S1.
Qed.

(** X8. The straight segments of a composed scene, in painting order:
    with rule lines shown, for each rule in the order of the rule set
    its [N] segments by increasing index, then - always, and on top -
    the manual lines in the order they were drawn; with rule lines
    hidden, the manual lines only.  The markers flag has no say in it. *)
Theorem drawCircle_paints_rules_then_lines (s : State) :
  ctxRef s = true ->
  strokedSegments (drawCircle s) =
    (if showRuleLines s
     then flat_map (ruleSegments (divisions s)) (rules s) else [])
    ++ map lineSegment (drawnLines s) /\
  List.length (strokedSegments (drawCircle s)) =
    ((if showRuleLines s
      then List.length (rules s) * Z.to_nat (divisions s) else 0)
     + List.length (drawnLines s))%nat.
Proof.
  intros Hc. rewrite (scene_segments s Hc). split; [ reflexivity | ].
  rewrite length_app, length_map. f_equal.
  destruct (showRuleLines s); [ | reflexivity ].
  induction (rules s) as [ | r rs IH]; [ reflexivity | ].
  cbn [flat_map List.length]. rewrite length_app, IH.
  unfold ruleSegments. now rewrite length_map, length_seq.
Qed.

(** X9. The preview of a point-to-point stroke: a pointer move repaints
    the scene and strokes exactly one more segment, from the recorded
    start point to the snapped pointer position, and leaves the state as
    it was - nothing of the preview is kept. *)
Theorem draw_previews_one_segment (s : State) (e : MouseEvent) (p : Point) :
  isDrawing s = true -> drawingMode s = true -> canvasRef s = true ->
  ctxRef s = true -> freeDrawing s = false -> startPoint s = Some p ->
  fst (draw s e) = s /\
  strokedSegments (canvasCalls (snd (draw s e))) =
    strokedSegments (drawCircle s)
    ++ [(p, snapToPoint (divisions s) (pointerX e) (pointerY e))].
Proof.
  intros Hd Hm Hcv Hcx Hf Hp. split; [ apply draw_frame | ].
  unfold draw. rewrite Hd, Hm, Hcv, Hcx, Hf, Hp. cbn [negb orb snd].
  rewrite canvasCalls_app, canvasCalls_Canvas. cbn [canvasCalls flat_map app].
  unfold strokedSegments. rewrite fold_left_app.
  cbn [fold_left penStep path pen stroked app].
  rewrite !point_eta. reflexivity.
Qed.

Lemma draw_TypeError (s : State) (e : MouseEvent) :
  In TypeError (snd (draw s e)) <->
  (isDrawing s = true /\ drawingMode s = true /\ canvasRef s = true /\
   ctxRef s = true /\ freeDrawing s = false /\ startPoint s = None).
Proof.
  assert (Hmap : forall l, ~ In TypeError (map Canvas l)).
  { intros l H. apply in_map_iff in H. destruct H as (c & Hc & _).
    discriminate. }
  unfold draw.
  destruct (isDrawing s), (drawingMode s), (canvasRef s), (ctxRef s),
    (freeDrawing s); cbn [negb orb snd];
    try solve [ split; [ intros []
                       | intros (? & ? & ? & ? & ? & ?); discriminate ] ].
  - split; [ intros H; cbn in H; intuition discriminate
           | intros (? & ? & ? & ? & ? & ?); discriminate ].
  - destruct (startPoint s) as [p | ].
    + split; [ | intros (? & ? & ? & ? & ? & ?); discriminate ].
      intros H. apply in_app_or in H. destruct H as [H | H].
      * now apply Hmap in H.
      * cbn in H. intuition discriminate.
    + split; [ now repeat split | ]. intros _.
      apply in_or_app. right. cbn. auto.
Qed.

(** X10. [draw] throws exactly when a stroke is in progress in
    point-to-point mode without a recorded start point, and a session
    gets there: press the pointer in freehand mode, switch freehand off
    before releasing, move the pointer. *)
Theorem draw_throws_without_start_point :
  (forall (s : State) (e : MouseEvent),
     In TypeError (snd (draw s e)) <->
     (isDrawing s = true /\ drawingMode s = true /\ canvasRef s = true /\
      ctxRef s = true /\ freeDrawing s = false /\ startPoint s = None)) /\
  (forall press move : MouseEvent,
     exists s effs,
       run initialState
         [Mount; ToggleDrawingMode; ToggleFreeDrawing; MouseDown press;
          ToggleFreeDrawing; MouseMove move] = Some (s, effs) /\
       In TypeError effs).
Proof.
  split; [ exact draw_TypeError | ].
  intros press move. eexists. eexists. split; [ reflexivity | ].
  rewrite !in_app_iff. do 5 right. left. right. right.
  left. reflexivity.
Qed.

Lemma drag_frame (moves : list MouseEvent) :
  forall (s : State) (acc : State * list Effect),
    fst acc = s ->
    fst (fold_left
           (fun acc e => (fst (draw (fst acc) e),
                          snd acc ++ snd (draw (fst acc) e)))
           moves acc) = s.
Proof.
  induction moves as [ | e moves IH]; intros s acc Hs; cbn [fold_left];
    [ exact Hs | ].
  apply IH. cbn [fst]. now rewrite draw_frame.
Qed.

Lemma drag_safe (moves : list MouseEvent) :
  forall (s : State) (acc : State * list Effect),
    fst acc = s -> startPoint s <> None -> ~ In TypeError (snd acc) ->
    ~ In TypeError
        (snd (fold_left
                (fun acc e => (fst (draw (fst acc) e),
                               snd acc ++ snd (draw (fst acc) e)))
                moves acc)).
Proof.
  induction moves as [ | e moves IH]; intros s acc Hs Hp Hacc;
    cbn [fold_left]; [ exact Hacc | ].
  apply (IH s); cbn [fst snd].
  - now rewrite draw_frame.
  - exact Hp.
  - intros H. apply in_app_or in H. destruct H as [H | H];
      [ now apply Hacc | ].
    apply draw_TypeError in H. rewrite Hs in H.
    destruct H as (_ & _ & _ & _ & _ & H). contradiction.
Qed.

(** X11. A whole point-to-point stroke - press, any pointer moves,
    release - commits what press and release alone commit: exactly one
    line from the snapped press position to the snapped release
    position; the moves in between only preview, change nothing and
    never throw. *)
Theorem stroke_ignores_moves
  (s : State) (a : MouseEvent) (moves : list MouseEvent) (b : MouseEvent) :
  drawingMode s = true -> canvasRef s = true -> freeDrawing s = false ->
  strokeWithMoves s a moves b = strokeFromTo s a b /\
  drawnLines (strokeWithMoves s a moves b) =
    drawnLines s ++
      [DrawnLine.mk
         (snapToPoint (divisions s) (pointerX a) (pointerY a))
         (snapToPoint (divisions s) (pointerX b) (pointerY b))
         (drawingColor s) (lineThickness s)] /\
  isDrawing (strokeWithMoves s a moves b) = false /\
  ~ In TypeError (snd (drag (fst (startDrawing s a)) moves)).
Proof.
  intros Hm Hc Hf.
  assert (Hsame : strokeWithMoves s a moves b = strokeFromTo s a b).
  { unfold strokeWithMoves, strokeFromTo, drag.
    now rewrite (drag_frame moves (s := fst (startDrawing s a))). }
  rewrite Hsame, (strokeFromTo_spec s a b Hm Hc Hf).
  repeat apply conj; try reflexivity.
  unfold drag. apply (drag_safe moves (s := fst (startDrawing s a)));
    try reflexivity.
  - unfold startDrawing. rewrite Hm, Hc, Hf. cbn. discriminate.
  - cbn. tauto.
Qed.

End Painting.

(** ** The angles of the division points, for every slider position *)

Section Angles.

Local Open Scope Z_scope.

Lemma forallb_range (f : Z -> bool) (a b : Z) :
  forallb f (range a b) = true -> forall i, a <= i < b -> f i = true.
Proof.
  intros H i Hi. rewrite forallb_forall in H. apply H.
  unfold range. apply in_map_iff. exists (Z.to_nat (i - a)).
  split; [ lia | ]. apply in_seq. lia.
Qed.

Lemma onSlider_sound (check : Z -> Z -> bool) :
  onSlider check = true ->
  forall n i, 3 <= n <= 36 -> 0 <= i < n -> check n i = true.
Proof.
  intros H n i Hn Hi. unfold onSlider in H.
  apply (@forallb_range (check n) 0 n); [ | exact Hi ].
  apply (@forallb_range (fun n => forallb (check n) (range 0 n)) 3 37);
    [ exact H | lia ].
Qed.

(** X12. For every division count of the slider (3..36) and every index
    below it, the angle at which a division point is placed - by the
    markers and the snapping as well as by the rule lines - is a number
    from 0 up to, not including, a full turn [2 * Math.PI], and is below
    the angle of the next index: in binary64 as over the reals, the
    points go once round the circle and no two indices share an angle. *)
Theorem division_angles_go_once_round (n i : Z) :
  3 <= n <= 36 -> 0 <= i < n ->
  (PrimFloat.leb 0 (divisionRadian n i) = true /\
   PrimFloat.ltb (divisionRadian n i) (2 * JS.Math_PI) = true /\
   PrimFloat.ltb (divisionRadian n i) (divisionRadian n (i + 1)) = true) /\
  (PrimFloat.leb 0 (ruleStartAngle n i) = true /\
   PrimFloat.ltb (ruleStartAngle n i) (2 * JS.Math_PI) = true /\
   PrimFloat.ltb (ruleStartAngle n i) (ruleStartAngle n (i + 1)) = true).
Proof.
  intros Hn Hi.
  assert (H1 : onSlider (angleInTurn divisionRadian) = true)
    by (vm_compute; reflexivity).
  assert (H2 : onSlider (angleInTurn ruleStartAngle) = true)
    by (vm_compute; reflexivity).
  pose proof (@onSlider_sound _ H1 n i Hn Hi) as A1.
  pose proof (@onSlider_sound _ H2 n i Hn Hi) as A2.
  unfold angleInTurn in A1, A2.
  rewrite !andb_true_iff in A1, A2. tauto.
Qed.

(** X13. For every division count of the slider and every index below
    it, the angle the rule lines use, [(i / N) * 2 * Math.PI], and the
    angle the markers and the snapping use, [((i * 360) / N) * Math.PI /
    180], are at most two units in the last place apart (they are not
    always equal). *)
Theorem rule_and_marker_angles_agree (n i : Z) :
  3 <= n <= 36 -> 0 <= i < n ->
  withinTwoUlps (ruleStartAngle n i) (divisionRadian n i) = true.
Proof.
  intros Hn Hi.
  assert (H : onSlider (fun n i => withinTwoUlps (ruleStartAngle n i)
                                     (divisionRadian n i)) = true)
    by (vm_compute; reflexivity).
  exact (@onSlider_sound _ H n i Hn Hi).
Qed.

End Angles.

(** ** Rule lines and division points *)

Section RuleLinesAndMarkers.

Context {M : JS.MathLib}.

Local Open Scope Z_scope.

Lemma ruleDivisionPoint_12 (i : Z) :
  0 <= i < 12 -> ruleDivisionPoint 12 i = divisionPoint 12 i.
Proof.
  intros Hi. apply ruleDivisionPoint_divisionPoint.
  rewrite <- (Z2Nat.id i) by lia. apply ruleStartAngle_default. lia.
Qed.

(** C6, as the code has it.  Expanding the rule [(start, offset)] for
    [N] divisions strokes exactly [N] segments, the [i]-th from division
    point [i] to division point [(i + offset) mod N], both placed at the
    angle [drawRuleLines] computes, [(k / N) * 2 * Math.PI]; with offset
    0 these are the [N] segments from a point to itself, all of them
    stroked.  That angle need not be the binary64 that [divisionPoint]
    computes from [k * 360 / N] degrees: where the two are the same the
    endpoint is [divisionPoint k], for every division count of the
    slider they are at most two units in the last place apart, and at
    the default count of 12 every endpoint is a [divisionPoint]. *)
Theorem drawRule_segments (n start offset : Z) :
  0 <= start -> 0 <= offset ->
  let segments :=
    strokedSegments (drawRule n (ruleString (Some start) (Some offset))) in
  segments =
    map (fun i => (ruleDivisionPoint n (Z.of_nat i),
                   ruleDivisionPoint n ((Z.of_nat i + offset) mod n)))
      (seq 0 (Z.to_nat n)) /\
  List.length segments = Z.to_nat n /\
  (offset = 0 ->
   segments =
     map (fun i => (ruleDivisionPoint n (Z.of_nat i),
                    ruleDivisionPoint n (Z.of_nat i)))
       (seq 0 (Z.to_nat n))) /\
  (forall k, ruleStartAngle n k = divisionRadian n k ->
             ruleDivisionPoint n k = divisionPoint n k) /\
  (3 <= n <= 36 -> forall k, 0 <= k < n ->
     withinTwoUlps (ruleStartAngle n k) (divisionRadian n k) = true) /\
  (n = 12 ->
   segments =
     map (fun i => (divisionPoint 12 (Z.of_nat i),
                    divisionPoint 12 ((Z.of_nat i + offset) mod 12)))
       (seq 0 12)).
Proof.
  intros Hs Ho. cbv zeta. rewrite (strokedSegments_drawRule n Hs Ho).
  repeat apply conj.
  - reflexivity.
  - now rewrite length_map, length_seq.
  - intros ->. apply map_ext_in. intros i Hi. apply in_seq in Hi.
    rewrite Z.add_0_r, Z.mod_small by lia. reflexivity.
  - intros k. apply ruleDivisionPoint_divisionPoint.
  - intros Hn k Hk.
    assert (H : onSlider (fun n i => withinTwoUlps (ruleStartAngle n i)
                                       (divisionRadian n i)) = true)
      by (vm_compute; reflexivity).
    exact (@onSlider_sound _ H n k Hn Hk).
  - intros ->. change (Z.to_nat 12) with 12%nat.
    apply map_ext_in. intros i Hi. apply in_seq in Hi.
    rewrite !ruleDivisionPoint_12; [ reflexivity | | lia ].
    apply Z.mod_pos_bound. lia.
Qed.

End RuleLinesAndMarkers.

(** ** White space in the rule text *)

Module Padding.

Import JS.

Lemma append_assoc (a b c : string) :
  ((a ++ b) ++ c)%string = (a ++ (b ++ c))%string.
Proof. induction a as [ | x a IH]; simpl; congruence. Qed.

Lemma rev_append_app (s : string) :
  forall acc, rev_append s acc = (reverse s ++ acc)%string.
Proof.
  unfold reverse. induction s as [ | c s IH]; intros acc; cbn [rev_append].
  - reflexivity.
  - rewrite (IH (String c acc)), (IH (String c EmptyString)).
    rewrite append_assoc. reflexivity.
Qed.

Lemma reverse_app (a b : string) :
  reverse (a ++ b) = (reverse b ++ reverse a)%string.
Proof.
  induction a as [ | c a IH]; cbn [append].
  - now rewrite JSFacts.append_empty_r.
  - unfold reverse at 1 3. cbn [rev_append].
    rewrite !rev_append_app, IH, append_assoc. reflexivity.
Qed.

Lemma allWhite_reverse (w : string) : allWhite w = true -> allWhite (reverse w) = true.
Proof.
  assert (H : forall s acc, allWhite s = true -> allWhite acc = true ->
                allWhite (rev_append s acc) = true).
  { induction s as [ | c s IH]; intros acc Hs Hacc; cbn [rev_append];
      [ exact Hacc | ].
    cbn [allWhite] in Hs. apply andb_true_iff in Hs. destruct Hs as [Hc Hs].
    apply IH; [ exact Hs | ]. cbn [allWhite]. now rewrite Hc. }
  intros Hw. now apply H.
Qed.

Lemma allDecimal_reverse (d : string) :
  allDecimal d = true -> allDecimal (reverse d) = true.
Proof. intros H. unfold reverse. now apply JSFacts.allDecimal_rev_append. Qed.

Lemma reverse_nonempty (d : string) :
  d <> EmptyString -> reverse d <> EmptyString.
Proof.
  intros Hd Hr. apply Hd. rewrite <- (JSFacts.reverse_reverse d), Hr.
  reflexivity.
Qed.

(** Leading white space goes, up to the first digit. *)
Lemma trimStart_padding (w d rest : string) :
  allWhite w = true -> allDecimal d = true -> d <> EmptyString ->
  trimStart (w ++ d ++ rest) = (d ++ rest)%string.
Proof.
  intros Hw Hd Hne. induction w as [ | c w IH]; cbn [append].
  - destruct d as [ | x d]; [ congruence | ].
    cbn [allDecimal] in Hd. apply andb_true_iff in Hd. destruct Hd as [Hx _].
    destruct (JSFacts.isDecimalDigit_plain _ Hx) as (Hws & _).
    cbn [append trimStart]. now rewrite Hws.
  - cbn [allWhite] in Hw. apply andb_true_iff in Hw. destruct Hw as [Hc Hw].
    cbn [trimStart]. rewrite Hc. now apply IH.
Qed.

(** [trim] of a decimal number between white space is the number. *)
Lemma trim_padding (w1 d w2 : string) :
  allWhite w1 = true -> allWhite w2 = true ->
  allDecimal d = true -> d <> EmptyString ->
  trim (w1 ++ d ++ w2) = d.
Proof.
  intros H1 H2 Hd Hne. unfold trim, trimEnd.
  rewrite (@trimStart_padding w1 d w2 H1 Hd Hne).
  rewrite reverse_app.
  rewrite <- (JSFacts.append_empty_r (reverse d)).
  rewrite (@trimStart_padding (reverse w2) (reverse d) EmptyString).
  - rewrite JSFacts.append_empty_r. apply JSFacts.reverse_reverse.
  - now apply allWhite_reverse.
  - now apply allDecimal_reverse.
  - now apply reverse_nonempty.
Qed.

Lemma noPlus_app (a b : string) :
  noPlus a = true -> noPlus b = true -> noPlus (a ++ b) = true.
Proof.
  intros Ha Hb. induction a as [ | c a IH]; cbn [append noPlus];
    [ exact Hb | ].
  cbn [noPlus] in Ha. apply andb_true_iff in Ha. destruct Ha as [Hc Ha].
  now rewrite Hc, IH.
Qed.

Lemma noPlus_white (w : string) : allWhite w = true -> noPlus w = true.
Proof.
  induction w as [ | c w IH]; cbn [allWhite noPlus]; [ reflexivity | ].
  intros H. apply andb_true_iff in H. destruct H as [Hc Hw].
  rewrite (IH Hw), andb_true_r.
  destruct (Ascii.eqb_spec c "+") as [-> | _]; [ discriminate Hc | reflexivity ].
Qed.

Lemma noPlus_decimal (d : string) : allDecimal d = true -> noPlus d = true.
Proof.
  induction d as [ | c d IH]; cbn [allDecimal noPlus]; [ reflexivity | ].
  intros H. apply andb_true_iff in H. destruct H as [Hc Hd].
  destruct (JSFacts.isDecimalDigit_plain _ Hc) as (_ & _ & -> & _).
  now rewrite (IH Hd).
Qed.

Lemma split_noPlus (t : string) : noPlus t = true -> split "+" t = [t].
Proof.
  induction t as [ | c t IH]; cbn [noPlus split]; [ reflexivity | ].
  intros H. apply andb_true_iff in H. destruct H as [Hc Ht].
  apply negb_true_iff in Hc. now rewrite Hc, (IH Ht).
Qed.

Lemma split_at_plus (a b : string) :
  noPlus a = true -> noPlus b = true ->
  split "+" (a ++ String "+" b) = [a; b].
Proof.
  intros Ha Hb. induction a as [ | c a IH]; cbn [append split].
  - now rewrite Ascii.eqb_refl, (@split_noPlus b Hb).
  - cbn [noPlus] in Ha. apply andb_true_iff in Ha. destruct Ha as [Hc Ha].
    apply negb_true_iff in Hc. now rewrite Hc, (IH Ha).
Qed.

End Padding.

Section PaddedRule.

Local Open Scope Z_scope.

(** X14. White space around either number of the rule text is ignored.
    For [a] and [b] from 0 up to, not including, the division count, a
    text made of optional white space, the decimal digits of [a],
    optional white space, [+], optional white space, the digits of [b]
    and optional white space is read as [(a, b)]; [handleAddRule]
    accepts it and stores the canonical text of [(a, b)] without the
    white space, or leaves the state alone when that text is in the set
    already. *)
Theorem handleAddRule_ignores_padding
  (s : State) (a b : Z) (w1 w2 w3 w4 : string) :
  0 <= a < divisions s -> 0 <= b < divisions s ->
  allWhite w1 = true -> allWhite w2 = true ->
  allWhite w3 = true -> allWhite w4 = true ->
  currentRule s =
    ((w1 ++ JS.toString a ++ w2) ++ String "+" (w3 ++ JS.toString b ++ w4))%string ->
  parseRule (currentRule s) = (Some a, Some b) /\
  handleAddRule s =
    if includes (rules s) (ruleString (Some a) (Some b))
    then (s, [])
    else (setCurrentRule ""
            (setRules (rules s ++ [ruleString (Some a) (Some b)]) s), []).
Proof.
  intros Ha Hb H1 H2 H3 H4 Htext.
  destruct (@JSFacts.allDecimal_toString a) as [Da Na]; [ lia | ].
  destruct (@JSFacts.allDecimal_toString b) as [Db Nb]; [ lia | ].
  assert (Hparse : parseRule (currentRule s) = (Some a, Some b)).
  { unfold parseRule. rewrite Htext, Padding.split_at_plus.
    - cbn [map nth].
      rewrite !Padding.trim_padding by assumption.
      rewrite !JSFacts.parseInt_allDecimal by assumption.
      rewrite !JSFacts.parseDigits_toString by lia. reflexivity.
    - repeat apply Padding.noPlus_app;
        auto using Padding.noPlus_white, Padding.noPlus_decimal.
    - repeat apply Padding.noPlus_app;
        auto using Padding.noPlus_white, Padding.noPlus_decimal. }
  split; [ exact Hparse | ].
  rewrite handleAddRule_cases, Hparse. cbn [fst snd].
  assert (Hv : validRule (divisions s) (Some a) (Some b) = true).
  { unfold validRule, JS.isNaN, JS.geb, JS.ltb. cbn [negb andb].
    rewrite !andb_true_iff, !Z.geb_leb, !Z.leb_le, !Z.ltb_lt. lia. }
  rewrite Hv. cbv zeta.
  destruct (includes (rules s) (ruleString (Some a) (Some b))); reflexivity.
Qed.

End PaddedRule.

(** ** The further properties on concrete runs *)

Lemma undo_redo_round_trip_run :
  undoStack (handleResetDrawing mounted) <> [] /\
  handleRedo (handleUndo (handleResetDrawing mounted))
    = handleResetDrawing mounted /\
  redoStack afterResetAndUndo <> [] /\
  handleUndo (handleRedo afterResetAndUndo) = afterResetAndUndo.
Proof.
  assert (H1 : undoStack (handleResetDrawing mounted) <> [])
    by discriminate.
  assert (H2 : redoStack afterResetAndUndo <> []) by discriminate.
  exact (conj H1
           (conj (proj1 (undo_redo_round_trip (handleResetDrawing mounted)) H1)
              (conj H2
                 (proj2 (undo_redo_round_trip afterResetAndUndo) H2)))).
Defined.

Lemma handleAddRule_accepts_run :
  addRuleFails (setCurrentRule " 3 + 4" mounted) = false /\
  ~ In "3+4"%string (rules (setCurrentRule " 3 + 4" mounted)) /\
  exists a b,
    parseRule " 3 + 4" = (Some a, Some b) /\
    (0 <= a < 12)%Z /\ (0 <= b < 12)%Z /\
    rules (fst (handleAddRule (setCurrentRule " 3 + 4" mounted)))
      = [ruleString (Some a) (Some b)].
Proof.
  assert (H1 : addRuleFails (setCurrentRule " 3 + 4" mounted) = false)
    by reflexivity.
  assert (H2 : ~ In "3+4"%string (rules (setCurrentRule " 3 + 4" mounted)))
    by (simpl; tauto).
  destruct (handleAddRule_accepts (setCurrentRule " 3 + 4" mounted) H1 H2)
    as (a & b & Hp & Ha & Hb & Hadd & _).
  refine (conj H1 (conj H2 _)). exists a, b.
  refine (conj Hp (conj Ha (conj Hb _))).
  rewrite Hadd. reflexivity.
Defined.

Lemma ruleString_injective_run :
  (0 <= 1)%Z /\ (0 <= 23)%Z /\ (0 <= 12)%Z /\ (0 <= 3)%Z /\
  ruleString (Some 1%Z) (Some 23%Z) <> ruleString (Some 12%Z) (Some 3%Z).
Proof.
  assert (H1 : (0 <= 1)%Z) by lia. assert (H2 : (0 <= 23)%Z) by lia.
  assert (H3 : (0 <= 12)%Z) by lia. assert (H4 : (0 <= 3)%Z) by lia.
  refine (conj H1 (conj H2 (conj H3 (conj H4 _)))).
  intros H. destruct (ruleString_injective H1 H2 H3 H4 H) as [Ha _].
  discriminate Ha.
Defined.

Lemma reachable_wellFormed_run :
  reachable (M := ReferenceMath.lib)
    (setRules ["0+30"%string] (setDivisions 12 mounted)) /\
  wellFormed (setRules ["0+30"%string] (setDivisions 12 mounted)) /\
  exists a b, parseRule "0+30" = (Some a, Some b) /\
              (0 <= a < 36)%Z /\ (0 <= b < 36)%Z.
Proof.
  assert (Hr : reachable (M := ReferenceMath.lib)
                 (setRules ["0+30"%string] (setDivisions 12 mounted))).
  { exists staleRuleSession. eexists. vm_compute. reflexivity. }
  destruct (reachable_wellFormed Hr) as [W Hrules].
  exact (conj Hr (conj W (Hrules "0+30"%string (or_introl eq_refl)))).
Defined.

Lemma drawCircle_paints_rules_then_lines_run :
  ctxRef sampleScene = true /\
  List.length (strokedSegments (drawCircle (M := ReferenceMath.lib) sampleScene))
    = 9%nat /\
  nth_error (strokedSegments (drawCircle (M := ReferenceMath.lib) sampleScene)) 8
    = Some (Point.mk 720 400, Point.mk 400 720).
Proof.
  assert (Hc : ctxRef sampleScene = true) by reflexivity.
  destruct (drawCircle_paints_rules_then_lines (M := ReferenceMath.lib)
              sampleScene Hc) as [Hseg Hlen].
  refine (conj Hc (conj Hlen _)).
  rewrite Hseg. vm_compute. reflexivity.
Defined.

Lemma draw_previews_one_segment_run :
  isDrawing strokeInProgress = true /\ drawingMode strokeInProgress = true /\
  canvasRef strokeInProgress = true /\ ctxRef strokeInProgress = true /\
  freeDrawing strokeInProgress = false /\
  startPoint strokeInProgress = Some (Point.mk 720 400) /\
  strokedSegments
    (canvasCalls (snd (draw (M := ReferenceMath.lib) strokeInProgress
                         (pointerAt 402 717))))
  = [(Point.mk 720 400, Point.mk 400 720)].
Proof.
  assert (H1 : isDrawing strokeInProgress = true) by (vm_compute; reflexivity).
  assert (H2 : drawingMode strokeInProgress = true) by (vm_compute; reflexivity).
  assert (H3 : canvasRef strokeInProgress = true) by (vm_compute; reflexivity).
  assert (H4 : ctxRef strokeInProgress = true) by (vm_compute; reflexivity).
  assert (H5 : freeDrawing strokeInProgress = false) by (vm_compute; reflexivity).
  assert (H6 : startPoint strokeInProgress = Some (Point.mk 720 400))
    by (vm_compute; reflexivity).
  destruct (draw_previews_one_segment (M := ReferenceMath.lib)
              strokeInProgress (pointerAt 402 717) H1 H2 H3 H4 H5 H6)
    as [_ Hseg].
  refine (conj H1 (conj H2 (conj H3 (conj H4 (conj H5 (conj H6 _)))))).
  rewrite Hseg. vm_compute. reflexivity.
Defined.

Lemma stroke_ignores_moves_run :
  drawingMode (toggleDrawingMode mounted) = true /\
  canvasRef (toggleDrawingMode mounted) = true /\
  freeDrawing (toggleDrawingMode mounted) = false /\
  drawnLines
    (strokeWithMoves (M := ReferenceMath.lib) (toggleDrawingMode mounted)
       (pointerAt 715 405) [pointerAt 600 500; pointerAt 500 600]
       (pointerAt 402 717))
  = [DrawnLine.mk (Point.mk 720 400) (Point.mk 400 720) "#000000" 2].
Proof.
  destruct (stroke_ignores_moves (M := ReferenceMath.lib)
              (toggleDrawingMode mounted) (pointerAt 715 405)
              [pointerAt 600 500; pointerAt 500 600] (pointerAt 402 717)
              eq_refl eq_refl eq_refl) as (_ & Hl & _).
  refine (conj eq_refl (conj eq_refl (conj eq_refl _))).
  rewrite Hl. vm_compute. reflexivity.
Defined.

Lemma division_angles_go_once_round_run :
  (3 <= 7 <= 36)%Z /\ (0 <= 5 < 7)%Z /\
  PrimFloat.ltb (divisionRadian 7 5) (divisionRadian 7 6) = true /\
  PrimFloat.ltb (ruleStartAngle 7 6) (2 * JS.Math_PI) = true.
Proof.
  assert (Hn : (3 <= 7 <= 36)%Z) by lia.
  assert (H5 : (0 <= 5 < 7)%Z) by lia.
  assert (H6 : (0 <= 6 < 7)%Z) by lia.
  destruct (division_angles_go_once_round Hn H5) as ((_ & _ & Hnext) & _).
  destruct (division_angles_go_once_round Hn H6) as (_ & (_ & Hturn & _)).
  exact (conj Hn (conj H5 (conj Hnext Hturn))).
Defined.

Lemma rule_and_marker_angles_agree_run :
  (3 <= 7 <= 36)%Z /\ (0 <= 5 < 7)%Z /\
  withinTwoUlps (ruleStartAngle 7 5) (divisionRadian 7 5) = true.
Proof.
  assert (Hn : (3 <= 7 <= 36)%Z) by lia.
  assert (H5 : (0 <= 5 < 7)%Z) by lia.
  exact (conj Hn (conj H5 (rule_and_marker_angles_agree Hn H5))).
Defined.

Lemma handleAddRule_ignores_padding_run :
  (0 <= 3 < divisions mounted)%Z /\ (0 <= 4 < divisions mounted)%Z /\
  parseRule "  3 +	4 " = (Some 3%Z, Some 4%Z) /\
  rules (fst (handleAddRule (setCurrentRule "  3 +	4 " mounted)))
    = ["3+4"%string].
Proof.
  assert (Ha : (0 <= 3 < divisions (setCurrentRule "  3 +	4 " mounted))%Z)
    by (cbn; lia).
  assert (Hb : (0 <= 4 < divisions (setCurrentRule "  3 +	4 " mounted))%Z)
    by (cbn; lia).
  destruct (@handleAddRule_ignores_padding
              (setCurrentRule "  3 +	4 " mounted) 3 4
              "  " " " "	" " " Ha Hb eq_refl eq_refl eq_refl eq_refl eq_refl)
    as [Hp Hadd].
  refine (conj Ha (conj Hb (conj Hp _))).
  rewrite Hadd. reflexivity.
Defined.

(** ** The revised statements on concrete runs *)


(** Seven divisions, index 5: the angle of the rule lines and the angle
    of the markers differ in the last place, and with the reference
    library the sixth segment of the rule [0+1] does not start at
    [divisionPoint 5]. *)
Lemma rule_segment_off_divisionPoint :
  nth_error
    (strokedSegments (drawRule (M := ReferenceMath.lib) 7 "0+1")) 5
  = Some (ruleDivisionPoint (M := ReferenceMath.lib) 7 5,
          ruleDivisionPoint (M := ReferenceMath.lib) 7 6) /\
  ruleDivisionPoint (M := ReferenceMath.lib) 7 5
    <> divisionPoint (M := ReferenceMath.lib) 7 5 /\
  PrimFloat.Leibniz.eqb
    (Point.x (ruleDivisionPoint (M := ReferenceMath.lib) 7 5))
    (Point.x (divisionPoint (M := ReferenceMath.lib) 7 5)) = false.
Proof.
  repeat apply conj.
  - vm_compute. reflexivity.
  - intros H.
    apply (f_equal (fun p => PrimFloat.Leibniz.eqb (Point.x p)
             (Point.x (divisionPoint (M := ReferenceMath.lib) 7 5)))) in H.
    vm_compute in H. discriminate H.
  - vm_compute. reflexivity.
Qed.

Lemma drawRule_segments_run :
  (0 <= 0)%Z /\ (0 <= 3)%Z /\
  List.length (strokedSegments (drawRule (M := ReferenceMath.lib) 12 "0+3"))
    = 12%nat /\
  hd_error (strokedSegments (drawRule (M := ReferenceMath.lib) 12 "0+3"))
    = Some (divisionPoint (M := ReferenceMath.lib) 12 0,
            divisionPoint (M := ReferenceMath.lib) 12 3) /\
  divisionPoint (M := ReferenceMath.lib) 12 3 = Point.mk 400 720.
Proof.
  assert (H0 : (0 <= 0)%Z) by lia.
  assert (H3 : (0 <= 3)%Z) by lia.
  destruct (drawRule_segments (M := ReferenceMath.lib) 12 H0 H3)
    as (_ & Hlen & _ & _ & _ & H12).
  refine (conj H0 (conj H3 (conj Hlen (conj _ _)))).
  - change "0+3"%string with (ruleString (Some 0%Z) (Some 3%Z)).
    rewrite (H12 eq_refl). reflexivity.
  - vm_compute. reflexivity.
Defined.
